(** * A shallow embedding of the feature-flag service (app.py)

    The service is a Flask application over one PostgreSQL table.  Every
    handler of app.py is embedded as a function in a small state-and-exception
    monad.  The state holds the process environment, the secret store, the
    database server with the committed content of table [flags], the handler's
    local variables [conn] and [cur], and a trace of the external calls made.

    The server side follows the schema that [init_db] creates:

      name       VARCHAR(100) UNIQUE NOT NULL
      is_enabled BOOLEAN NOT NULL DEFAULT false

    Columns [id] and [created_at] are neither read nor written by any
    statement of the program, so a row keeps the two columns above.  Requests
    are handled one at a time. *)

From stdpp Require Import base option list gmap strings sorting.
From Stdlib Require Import ZArith String Ascii Bool Lia.

Set Warnings "-register-all".

Local Open Scope string_scope.
Local Open Scope Z_scope.
Local Open Scope list_scope.

(** ** Python values *)

(** What [request.get_json()] can return: [None], or a decoded JSON value.
    A float is kept as its 64-bit IEEE pattern. *)
Inductive pyval : Type :=
  | PNone
  | PBool (b : bool)
  | PInt (n : Z)
  | PFloat (bits : Z)
  | PStr (s : string)
  | PList (l : list pyval)
  | PDict (d : gmap string pyval).

(** Constraint of the schema that a statement can violate. *)
Inductive violation : Type :=
  | UniqueViolation
  | NotNullViolation.

Inductive runtime_reason : Type :=
  | Boto3Missing        (* "boto3 não está instalado; ..." *)
  | PasswordUnresolved. (* "Senha do DB não resolvida. ..." *)

(** Exceptions, all of them subclasses of [Exception].  The psycopg2 classes
    are siblings under [psycopg2.Error]; both violations of the schema are
    reported as [IntegrityError] (SQLSTATE class 23). *)
Inductive pyexn : Type :=
  | TypeError
  | KeyError
  | AttributeError
  | ValueError
  | UnboundLocalError
  | RuntimeError (r : runtime_reason)
  | ClientError
  | OperationalError
  | IntegrityError (v : violation)
  | DataError
  | ProgrammingError
  | InternalError.

(** Failures of the driver or the server that are not violations of the
    schema. *)
Inductive failure : Type :=
  | FValue          (* ValueError: the driver refuses a parameter *)
  | FConnectionLost (* OperationalError: the server closed the connection *)
  | FOperational    (* OperationalError on a connection that stays usable:
                       a cancelled statement, a lock that is not available *)
  | FData           (* DataError: a value is not valid for its type *)
  | FProgramming    (* ProgrammingError: wrong type, missing privilege, ... *)
  | FInternal.      (* InternalError *)

Definition exn_of (f : failure) : pyexn :=
  match f with
  | FValue => ValueError
  | FConnectionLost => OperationalError
  | FOperational => OperationalError
  | FData => DataError
  | FProgramming => ProgrammingError
  | FInternal => InternalError
  end.

(** psycopg2 marks a connection that broke as closed: [conn.closed] is then
    nonzero, and [cur.closed] of its cursors is true. *)
Definition breaks_connection (f : failure) : bool :=
  match f with
  | FConnectionLost => true
  | _ => false
  end.

Inductive result (A : Type) : Type :=
  | Ok (a : A)
  | Raise (e : pyexn).
Arguments Ok {A} a.
Arguments Raise {A} e.

(** [bool(v)] *)
Definition truthy (v : pyval) : bool :=
  match v with
  | PNone => false
  | PBool b => b
  | PInt n => negb (Z.eqb n 0)
  | PFloat bits => negb (Z.eqb (bits mod 2 ^ 63) 0)
  | PStr s => negb (String.eqb s EmptyString)
  | PList l => match l with [] => false | _ => true end
  | PDict d => negb (Nat.eqb (size d) 0)
  end.

(** [sub in s] on two strings: [sub] occurs in [s]. *)
Fixpoint str_contains (sub s : string) : bool :=
  String.prefix sub s ||
  match s with
  | EmptyString => false
  | String _ s' => str_contains sub s'
  end.

Definition is_str (k : string) (v : pyval) : bool :=
  match v with
  | PStr s => String.eqb k s
  | _ => false
  end.

(** [k in v], for a string [k] *)
Definition py_in (k : string) (v : pyval) : result bool :=
  match v with
  | PDict d => Ok (bool_decide (is_Some (d !! k)))
  | PList l => Ok (existsb (is_str k) l)
  | PStr s => Ok (str_contains k s)
  | PNone | PBool _ | PInt _ | PFloat _ => Raise TypeError
  end.

(** [v[k]], for a string [k] *)
Definition py_getitem (v : pyval) (k : string) : result pyval :=
  match v with
  | PDict d => match d !! k with
               | Some x => Ok x
               | None => Raise KeyError
               end
  | _ => Raise TypeError
  end.

(** [v.get(k, default)] *)
Definition py_get (v : pyval) (k : string) (default : pyval) : result pyval :=
  match v with
  | PDict d => Ok (match d !! k with
                   | Some x => x
                   | None => default
                   end)
  | _ => Raise AttributeError
  end.

(** [isinstance(v, bool)] *)
Definition isinstance_bool (v : pyval) : bool :=
  match v with
  | PBool _ => true
  | _ => false
  end.

(** ** The table, the statements and the outside world *)

(** A row of [flags], as the program's statements see it. *)
Record row : Type := Row { name : string; is_enabled : bool }.

(** The statements the program sends through [cur.execute], with the Python
    values bound to their [%s] placeholders, and [conn.commit()]. *)
Inductive statement : Type :=
  | SqlCreateTable                          (* CREATE TABLE IF NOT EXISTS flags (...) *)
  | SqlInsert (name is_enabled : pyval)     (* INSERT INTO flags (name, is_enabled) VALUES (%s, %s) *)
  | SqlSelectAll                            (* SELECT name, is_enabled FROM flags ORDER BY name *)
  | SqlSelectOne (name : string)            (* SELECT name, is_enabled FROM flags WHERE name = %s *)
  | SqlUpdate (is_enabled : pyval) (name : string)
                                            (* UPDATE flags SET is_enabled = %s WHERE name = %s *)
  | SqlCommit.

(** Keyword arguments of [psycopg2.connect]. *)
Record conn_params : Type := ConnParams {
  host : option string;
  port : Z;
  database : option string;
  user : option string;
  password : string
}.

(** [print] lines of [init_db]. *)
Inductive printed : Type :=
  | PrintTrying                       (* "Tentando inicializar a tabela 'flags'..." *)
  | PrintDone                         (* "Tabela 'flags' inicializada com sucesso." *)
  | PrintConnectionError (e : pyexn)  (* "Erro de conexão ao inicializar o banco de dados: {e}" *)
  | PrintUnexpected (e : pyexn).      (* "Um erro inesperado ocorreu durante a inicialização do DB: {e}" *)

(** External calls, in the order they are made. *)
Inductive event : Type :=
  | EvPrint (p : printed)
  | EvSsmGetParameter (region_name param : string)
  | EvConnect (p : conn_params)
  | EvSend (s : statement)
  | EvCloseCursor
  | EvCloseConnection.

(** The PostgreSQL server behind psycopg2.
    - [accepts]: whether a connection with these parameters is established;
    - [fault]: a failure of the driver or the server that does not depend on
      the rows (lost connection, timeout, missing privilege, a parameter the
      driver refuses), raised in place of running the statement;
    - [cast_text], [cast_bool]: how a parameter that is neither [None] nor of
      the column's Python type is converted for columns [name] and
      [is_enabled], or why it is refused; the program does not determine it;
    - [flags]: committed rows of table [flags], [None] when the relation does
      not exist. *)
Record server : Type := Server {
  accepts : conn_params -> bool;
  fault : statement -> option failure;
  cast_text : pyval -> failure + string;
  cast_bool : pyval -> failure + bool;
  flags : option (list row)
}.

(** Module-level constants of app.py, read from the environment at import. *)
Record db_config : Type := DbConfig {
  DB_HOST : option string;
  DB_NAME : option string;
  DB_USER : option string;
  DB_PORT : Z
}.

(** [boto3.client("ssm", region_name=r).get_parameter(Name=n, WithDecryption=True)]
    followed by [response["Parameter"]["Value"]], as a function of [r] and
    [n]; [None] when the call raises [ClientError]. *)
Definition ssm_service : Type := string -> string -> option string.

Record world : Type := World {
  environ : gmap string string;   (* os.environ *)
  config : db_config;
  boto3 : option ssm_service;     (* None: the import of boto3 failed *)
  pg : server;
  trace : list event
}.

(** A psycopg2 connection: the table as the open transaction sees it. *)
Record connection : Type := Connection {
  conn_flags : option (list row);
  conn_closed : bool
}.

Record cursor : Type := Cursor {
  rowcount : Z;
  fetched : list row;
  cur_closed : bool
}.

(** A running handler: the world and the handler's local variables. *)
Record machine : Type := Machine {
  W : world;
  conn : option connection;   (* bound once [conn = get_db_connection()] has run *)
  cur : option cursor         (* bound once [cur = conn.cursor()] has run *)
}.

Definition set_flags (sv : server) (t : option (list row)) : server :=
  Server (accepts sv) (fault sv) (cast_text sv) (cast_bool sv) t.

Definition set_pg (w : world) (sv : server) : world :=
  World (environ w) (config w) (boto3 w) sv (trace w).

Definition emit (e : event) (w : world) : world :=
  World (environ w) (config w) (boto3 w) (pg w) (trace w ++ [e]).

(** A request starts with no local bound. *)
Definition start (w : world) : machine := Machine w None None.

(** ** The monad of handlers *)

Definition M (A : Type) : Type := machine -> result A * machine.

Definition ret {A} (a : A) : M A := fun m => (Ok a, m).

Definition raise {A} (e : pyexn) : M A := fun m => (Raise e, m).

Definition bind {A B} (k : A -> M B) (c : M A) : M B :=
  fun m => match c m with
           | (Ok a, m') => k a m'
           | (Raise e, m') => (Raise e, m')
           end.

#[export] Instance M_ret : MRet M := @ret.
#[export] Instance M_bind : MBind M := @bind.

Definition lift {A} (r : result A) : M A := fun m => (r, m).

(** [try: body  except Exception as e: handler e] *)
Definition try_except {A} (body : M A) (handler : pyexn -> M A) : M A :=
  fun m => match body m with
           | (Ok a, m') => (Ok a, m')
           | (Raise e, m') => handler e m'
           end.

(** [try: body  finally: cleanup] *)
Definition try_finally {A} (body : M A) (cleanup : M unit) : M A :=
  fun m => match body m with
           | (r, m') => match cleanup m' with
                        | (Ok _, m'') => (r, m'')
                        | (Raise e, m'') => (Raise e, m'')
                        end
           end.

Definition log (e : event) : M unit :=
  fun m => (Ok tt, Machine (emit e (W m)) (conn m) (cur m)).

Definition getenv (k : string) : M (option string) :=
  fun m => (Ok (environ (W m) !! k), m).

(** ** The server's reading of the statements *)

Definition all_spaces (s : string) : bool :=
  forallb (Ascii.eqb " "%char) (list_ascii_of_string s).

(** A [str] is kept as its UTF-8 encoding, one [ascii] per byte.  A
    character is a byte that is not a continuation byte (10xxxxxx), with the
    continuation bytes that follow it. *)
Definition is_continuation (c : ascii) : bool :=
  (128 <=? nat_of_ascii c)%nat && (nat_of_ascii c <? 192)%nat.

(** Number of characters, as [len] of the [str] and [char_length] of the
    text. *)
Fixpoint char_length (s : string) : nat :=
  match s with
  | EmptyString => 0%nat
  | String c s' => ((if is_continuation c then 0 else 1) + char_length s')%nat
  end.

(** The first [n] characters. *)
Fixpoint utf8_take (n : nat) (s : string) : string :=
  match s with
  | EmptyString => EmptyString
  | String c s' =>
      if is_continuation c then String c (utf8_take n s')
      else match n with
           | O => EmptyString
           | S n' => String c (utf8_take n' s')
           end
  end.

(** What follows the first [n] characters. *)
Fixpoint utf8_drop (n : nat) (s : string) : string :=
  match s with
  | EmptyString => EmptyString
  | String c s' =>
      if is_continuation c then utf8_drop n s'
      else match n with
           | O => s
           | S n' => utf8_drop n' s'
           end
  end.

(** Storing into [VARCHAR(100)]: a text of more than 100 characters is an
    error unless the excess is all spaces, which are cut. *)
Definition varchar100 (s : string) : result string :=
  if (char_length s <=? 100)%nat then Ok s
  else if all_spaces (utf8_drop 100 s)
       then Ok (utf8_take 100 s)
       else Raise DataError.

Definition option_map_result {A} (r : result A) : result (option A) :=
  match r with
  | Ok a => Ok (Some a)
  | Raise e => Raise e
  end.

(** Value for column [name] from the first placeholder of the INSERT.  The
    driver sends [None] as SQL NULL ([Ok None]) and a [str] as a text. *)
Definition bind_name (sv : server) (v : pyval) : result (option string) :=
  match v with
  | PNone => Ok None
  | PStr s => option_map_result (varchar100 s)
  | _ => match cast_text sv v with
         | inl f => Raise (exn_of f)
         | inr s => option_map_result (varchar100 s)
         end
  end.

(** Value for column [is_enabled]: [None] is SQL NULL, a [bool] is itself. *)
Definition bind_is_enabled (sv : server) (v : pyval) : result (option bool) :=
  match v with
  | PNone => Ok None
  | PBool b => Ok (Some b)
  | _ => match cast_bool sv v with
         | inl f => Raise (exn_of f)
         | inr b => Ok (Some b)
         end
  end.

Definition has_name (n : string) (r : row) : bool := String.eqb (name r) n.

(** ORDER BY name: the names in lexicographic order, character by character
    (the order of [String.compare]). *)
Definition row_le (r1 r2 : row) : Prop := String.le (name r1) (name r2).

#[export] Instance row_le_dec : RelDecision row_le.
Proof. intros r1 r2. unfold row_le. apply _. Defined.

Definition order_by_name (rows : list row) : list row := merge_sort row_le rows.

Definition set_is_enabled (n : string) (b : bool) (r : row) : row :=
  if has_name n r then Row (name r) b else r.

(** What a statement does to the table seen by the transaction: the new
    table, [cur.rowcount] and the rows to fetch. *)
Definition run (sv : server) (s : statement) (t : option (list row))
  : result (option (list row) * Z * list row) :=
  match s, t with
  | SqlCreateTable, None => Ok (Some [], -1, [])
  | SqlCreateTable, Some rows => Ok (Some rows, -1, [])
  | SqlCommit, _ => Ok (t, -1, [])
  | _, None => Raise ProgrammingError      (* relation "flags" does not exist *)
  | SqlInsert n e, Some rows =>
      match bind_name sv n with
      | Raise x => Raise x
      | Ok n' =>
          match bind_is_enabled sv e with
          | Raise x => Raise x
          | Ok e' =>
              match n', e' with
              | Some n'', Some e'' =>
                  if existsb (has_name n'') rows
                  then Raise (IntegrityError UniqueViolation)
                  else Ok (Some (rows ++ [Row n'' e'']), 1, [])
              | _, _ => Raise (IntegrityError NotNullViolation)
              end
          end
      end
  | SqlSelectAll, Some rows =>
      Ok (Some rows, Z.of_nat (List.length rows), order_by_name rows)
  | SqlSelectOne n, Some rows =>
      let found := List.filter (has_name n) rows in
      Ok (Some rows, Z.of_nat (List.length found), found)
  | SqlUpdate e n, Some rows =>
      match bind_is_enabled sv e with
      | Raise x => Raise x
      | Ok None => if existsb (has_name n) rows
                   then Raise (IntegrityError NotNullViolation)
                   else Ok (Some rows, 0, [])
      | Ok (Some b) =>
          Ok (Some (map (set_is_enabled n b) rows),
              Z.of_nat (List.length (List.filter (has_name n) rows)), [])
      end
  end.

(** ** psycopg2 *)

Definition psycopg2_connect (p : conn_params) : M connection :=
  fun m =>
    let m1 := Machine (emit (EvConnect p) (W m)) (conn m) (cur m) in
    if accepts (pg (W m)) p
    then (Ok (Connection (flags (pg (W m))) false), m1)
    else (Raise OperationalError, m1).

(** [conn = c] *)
Definition assign_conn (c : connection) : M unit :=
  fun m => (Ok tt, Machine (W m) (Some c) (cur m)).

(** [cur = conn.cursor()], with or without [cursor_factory=RealDictCursor] *)
Definition assign_cursor : M unit :=
  fun m => match conn m with
           | Some _ => (Ok tt, Machine (W m) (conn m) (Some (Cursor (-1) [] false)))
           | None => (Raise UnboundLocalError, m)
           end.

(** [cur.execute(s)].  A failure that breaks the connection leaves the
    connection and the cursor closed. *)
Definition cur_execute (s : statement) : M unit :=
  fun m =>
    match conn m, cur m with
    | Some c, Some k =>
        let w1 := emit (EvSend s) (W m) in
        match fault (pg (W m)) s with
        | Some f =>
            let lost := breaks_connection f in
            (Raise (exn_of f),
             Machine w1 (Some (Connection (conn_flags c) (conn_closed c || lost)))
                        (Some (Cursor (rowcount k) (fetched k) (cur_closed k || lost))))
        | None =>
            match run (pg (W m)) s (conn_flags c) with
            | Ok (t, n, rs) =>
                (Ok tt, Machine w1 (Some (Connection t (conn_closed c)))
                                   (Some (Cursor n rs (cur_closed k))))
            | Raise e => (Raise e, Machine w1 (conn m) (cur m))
            end
        end
    | _, _ => (Raise UnboundLocalError, m)
    end.

(** [conn.commit()]: the transaction's table becomes the committed one. *)
Definition conn_commit : M unit :=
  fun m =>
    match conn m with
    | Some c =>
        let w1 := emit (EvSend SqlCommit) (W m) in
        match fault (pg (W m)) SqlCommit with
        | Some f =>
            let lost := breaks_connection f in
            (Raise (exn_of f),
             Machine w1 (Some (Connection (conn_flags c) (conn_closed c || lost)))
                        (match cur m with
                         | Some k => Some (Cursor (rowcount k) (fetched k)
                                                  (cur_closed k || lost))
                         | None => None
                         end))
        | None => (Ok tt, Machine (set_pg w1 (set_flags (pg w1) (conn_flags c)))
                                  (conn m) (cur m))
        end
    | None => (Raise UnboundLocalError, m)
    end.

(** [cur.rowcount] *)
Definition cur_rowcount : M Z :=
  fun m => match cur m with
           | Some k => (Ok (rowcount k), m)
           | None => (Raise UnboundLocalError, m)
           end.

(** [cur.fetchall()] *)
Definition cur_fetchall : M (list row) :=
  fun m => match cur m with
           | Some k => (Ok (fetched k), m)
           | None => (Raise UnboundLocalError, m)
           end.

(** [cur.fetchone()] *)
Definition cur_fetchone : M (option row) :=
  fun m => match cur m with
           | Some k => (Ok (head (fetched k)), m)
           | None => (Raise UnboundLocalError, m)
           end.

(** [cur.close()] *)
Definition cur_close : M unit :=
  fun m => match cur m with
           | Some k => (Ok tt, Machine (emit EvCloseCursor (W m)) (conn m)
                                       (Some (Cursor (rowcount k) (fetched k) true)))
           | None => (Raise UnboundLocalError, m)
           end.

(** [conn.close()]: what was not committed is dropped with the connection. *)
Definition conn_close : M unit :=
  fun m => match conn m with
           | Some c => (Ok tt, Machine (emit EvCloseConnection (W m))
                                       (Some (Connection (conn_flags c) true)) (cur m))
           | None => (Raise UnboundLocalError, m)
           end.

(** The [finally] block shared by the four handlers:
      if 'cur' in locals() and not cur.closed: cur.close()
      if 'conn' in locals() and not conn.closed: conn.close() *)
Definition close_handles : M unit :=
  fun m =>
    let m1 := match cur m with
              | Some k => if cur_closed k then m else snd (cur_close m)
              | None => m
              end in
    match conn m1 with
    | Some c => if conn_closed c then (Ok tt, m1) else conn_close m1
    | None => (Ok tt, m1)
    end.

(** ** app.py *)

(** Truth value of an [Optional[str]]. *)
Definition opt_truthy (o : option string) : bool :=
  match o with
  | Some s => negb (String.eqb s EmptyString)
  | None => false
  end.

(** [a or b], where [b] is a string *)
Definition or_else (a : option string) (b : string) : string :=
  match a with
  | Some s => if negb (String.eqb s EmptyString) then s else b
  | None => b
  end.

Definition get_ssm_parameter (name region_name : string) : M string :=
  fun m =>
    match boto3 (W m) with
    | None => (Raise (RuntimeError Boto3Missing), m)
    | Some ssm =>
        (match ssm region_name name with
         | Some value => Ok value
         | None => Raise ClientError
         end,
         Machine (emit (EvSsmGetParameter region_name name) (W m)) (conn m) (cur m))
    end.

Definition resolve_db_password : M (option string) :=
  password ← getenv "DB_PASSWORD";
  if opt_truthy password then mret password
  else
    ssm_param ← getenv "DB_PASSWORD_SSM_PARAM";
    match ssm_param with
    | Some p =>
        if String.eqb p EmptyString then mret None
        else
          r1 ← getenv "AWS_REGION";
          r2 ← getenv "AWS_DEFAULT_REGION";
          let region := or_else r1 (or_else r2 "sa-east-1") in
          v ← get_ssm_parameter p region;
          mret (Some v)
    | None => mret None
    end.

(** The module-level constants DB_HOST, DB_NAME, DB_USER and DB_PORT. *)
Definition read_config : M db_config := fun m => (Ok (config (W m)), m).

Definition get_db_connection : M connection :=
  db_password ← resolve_db_password;
  if opt_truthy db_password
  then
    cfg ← read_config;
    psycopg2_connect (ConnParams (DB_HOST cfg) (DB_PORT cfg) (DB_NAME cfg) (DB_USER cfg)
                                 (default EmptyString db_password))
  else raise (RuntimeError PasswordUnresolved).

Definition is_operational_error (e : pyexn) : bool :=
  match e with
  | OperationalError => true
  | _ => false
  end.

Definition init_db : M unit :=
  log (EvPrint PrintTrying);;
  try_except
    (c ← get_db_connection;
     assign_conn c;;
     assign_cursor;;
     cur_execute SqlCreateTable;;
     conn_commit;;
     cur_close;;
     conn_close;;
     log (EvPrint PrintDone))
    (fun e =>
       if is_operational_error e
       then log (EvPrint (PrintConnectionError e))
       else log (EvPrint (PrintUnexpected e))).

Definition init_db_command : M unit := init_db.

(** Texts under the key "error". *)
Inductive error_text : Type :=
  | ErrNameRequired           (* "O campo 'name' é obrigatório" *)
  | ErrFlagExists (n : pyval) (* f"A flag '{name}' já existe" *)
  | ErrCreate                 (* "Erro interno no servidor ao criar a flag" *)
  | ErrList                   (* "Erro interno no servidor ao buscar as flags" *)
  | ErrGet                    (* "Erro interno no servidor ao buscar a flag" *)
  | ErrNotFound               (* "Flag não encontrada" *)
  | ErrIsEnabledRequired      (* "O campo 'is_enabled' (booleano) é obrigatório" *)
  | ErrUpdate.                (* "Erro interno no servidor ao atualizar a flag" *)

(** Texts under the key "message". *)
Inductive message_text : Type :=
  | MsgCreated (n : pyval)    (* f"Flag '{name}' criada com sucesso" *)
  | MsgUpdated (n : string).  (* f"Flag '{name}' atualizada" *)

(** Arguments of [jsonify]. *)
Inductive body : Type :=
  | JStatusOk                                            (* {"status": "ok"} *)
  | JError (error : error_text) (details : option pyexn) (* {"error": ..., "details": str(e)} *)
  | JMessage (message : message_text)                    (* {"message": ...} *)
  | JFlag (flag : row)                                   (* {"name": ..., "is_enabled": ...} *)
  | JFlags (flags : list row)
  | JUnhandled (e : pyexn).   (* Flask's answer to an exception that leaves the view *)

Definition response : Type := body * Z.

Definition is_integrity_error (e : pyexn) : bool :=
  match e with
  | IntegrityError _ => true
  | _ => false
  end.

Definition health_check : M response := mret (JStatusOk, 200).

(** POST /flags, [data] being [request.get_json()].  [Some r] out of the
    [try] statement is a [return r] taken inside it. *)
Definition create_flag (data : pyval) : M response :=
  if negb (truthy data) then mret (JError ErrNameRequired None, 400)
  else
    present ← lift (py_in "name" data);
    if negb present then mret (JError ErrNameRequired None, 400)
    else
      name ← lift (py_getitem data "name");
      is_enabled ← lift (py_get data "is_enabled" (PBool false));
      returned ← try_finally
        (try_except
           (c ← get_db_connection;
            assign_conn c;;
            assign_cursor;;
            cur_execute (SqlInsert name is_enabled);;
            conn_commit;;
            mret None)
           (fun e =>
              if is_integrity_error e
              then mret (Some (JError (ErrFlagExists name) None, 409))
              else mret (Some (JError ErrCreate (Some e), 500))))
        close_handles;
      match returned with
      | Some r => mret r
      | None => mret (JMessage (MsgCreated name), 201)
      end.

(** GET /flags *)
Definition get_flags : M response :=
  returned ← try_finally
    (try_except
       (c ← get_db_connection;
        assign_conn c;;
        assign_cursor;;
        cur_execute SqlSelectAll;;
        flags ← cur_fetchall;
        mret (inr flags))
       (fun e => mret (inl (JError ErrList (Some e), 500))))
    close_handles;
  match returned with
  | inl r => mret r
  | inr flags => mret (JFlags flags, 200)
  end.

(** GET /flags/<string:name> *)
Definition get_flag_status (name : string) : M response :=
  returned ← try_finally
    (try_except
       (c ← get_db_connection;
        assign_conn c;;
        assign_cursor;;
        cur_execute (SqlSelectOne name);;
        flag ← cur_fetchone;
        mret (inr flag))
       (fun e => mret (inl (JError ErrGet (Some e), 500))))
    close_handles;
  match returned with
  | inl r => mret r
  | inr (Some flag) => mret (JFlag flag, 200)
  | inr None => mret (JError ErrNotFound None, 404)
  end.

Definition is_none (v : pyval) : bool :=
  match v with
  | PNone => true
  | _ => false
  end.

(** PUT /flags/<string:name> *)
Definition update_flag (name : string) (data : pyval) : M response :=
  if is_none data then mret (JError ErrIsEnabledRequired None, 400)
  else
    present ← lift (py_in "is_enabled" data);
    if negb present then mret (JError ErrIsEnabledRequired None, 400)
    else
      v ← lift (py_getitem data "is_enabled");
      if negb (isinstance_bool v) then mret (JError ErrIsEnabledRequired None, 400)
      else
        is_enabled ← lift (py_getitem data "is_enabled");
        returned ← try_finally
          (try_except
             (c ← get_db_connection;
              assign_conn c;;
              assign_cursor;;
              cur_execute (SqlUpdate is_enabled name);;
              n ← cur_rowcount;
              if Z.eqb n 0 then mret (Some (JError ErrNotFound None, 404))
              else
                conn_commit;;
                mret None)
             (fun e => mret (Some (JError ErrUpdate (Some e), 500))))
          close_handles;
        match returned with
        | Some r => mret r
        | None => mret (JMessage (MsgUpdated name), 200)
        end.

(** Flask runs a view on a fresh frame; an exception that leaves the view is
    answered with status 500. *)
Definition serve (view : M response) (w : world) : response * world :=
  match view (start w) with
  | (Ok r, m) => (r, W m)
  | (Raise e, m) => ((JUnhandled e, 500), W m)
  end.

(** The same for a command that returns nothing. *)
Definition call {A} (f : M A) (w : world) : result A * world :=
  match f (start w) with
  | (r, m) => (r, W m)
  end.

(** * Properties *)

(** ** Worlds in which a request can be served *)

Definition extend (evs : list event) (w : world) : world :=
  World (environ w) (config w) (boto3 w) (pg w) (trace w ++ evs).

(** [get_db_connection()] returns a connection. *)
Definition connects (w : world) : bool :=
  match fst (get_db_connection (start w)) with
  | Ok _ => true
  | Raise _ => false
  end.

(** A text holds the character NUL. *)
Definition has_nul (s : string) : bool :=
  existsb (Ascii.eqb Ascii.zero) (list_ascii_of_string s).

Fixpoint nul_in (v : pyval) : bool :=
  match v with
  | PStr s => has_nul s
  | PList l => existsb nul_in l
  | _ => false
  end.

(** The refusal of psycopg2 to adapt a [str] that holds NUL: [ValueError],
    raised by [cur.execute] before anything is sent. *)
Definition driver_refuses (s : statement) : option failure :=
  match s with
  | SqlInsert n e => if nul_in n || nul_in e then Some FValue else None
  | SqlSelectOne n => if has_nul n then Some FValue else None
  | SqlUpdate e n => if nul_in e || has_nul n then Some FValue else None
  | SqlCreateTable | SqlSelectAll | SqlCommit => None
  end.

(** The encodings of the values of [str] that can be sent to the server:
    well-formed UTF-8, so neither a sequence cut short nor a surrogate.
    [need] continuation bytes are awaited, the next one between [lo] and
    [hi]. *)
Fixpoint well_formed_from (need lo hi : nat) (s : string) : bool :=
  match s with
  | EmptyString => (need =? 0)%nat
  | String c s' =>
      let k := nat_of_ascii c in
      match need with
      | O =>
          if (k <? 128)%nat then well_formed_from 0 128 191 s'
          else if (194 <=? k)%nat && (k <=? 223)%nat then well_formed_from 1 128 191 s'
          else if (k =? 224)%nat then well_formed_from 2 160 191 s'
          else if (k =? 237)%nat then well_formed_from 2 128 159 s'
          else if (225 <=? k)%nat && (k <=? 239)%nat then well_formed_from 2 128 191 s'
          else if (k =? 240)%nat then well_formed_from 3 144 191 s'
          else if (241 <=? k)%nat && (k <=? 243)%nat then well_formed_from 3 128 191 s'
          else if (k =? 244)%nat then well_formed_from 3 128 143 s'
          else false
      | S need' => (lo <=? k)%nat && (k <=? hi)%nat && well_formed_from need' 128 191 s'
      end
  end.

Definition well_formed (s : string) : bool := well_formed_from 0 128 191 s.

(** The texts that converter [<string:name>] of the routes of [get_flag_status]
    and [update_flag] matches: at least one character, no slash. *)
Definition routable (n : string) : bool :=
  negb (String.eqb n EmptyString) &&
  negb (existsb (Ascii.eqb "/"%char) (list_ascii_of_string n)).

(** A name that the service can store as it is and address by its route: a
    well-formed text without NUL, of at most 100 characters, that the routes
    match. *)
Definition valid_name (n : string) : Prop :=
  well_formed n = true /\ routable n = true /\ has_nul n = false /\
  (char_length n <= 100)%nat.

(** What [get_db_connection] reads. *)
Definition same_setup (w w' : world) : Prop :=
  environ w = environ w' /\ config w = config w' /\ boto3 w = boto3 w' /\
  accepts (pg w) = accepts (pg w').

(** A world for examples: the password comes from the environment, the server
    accepts every connection, the only failure is the driver's refusal of NUL,
    and every parameter of a foreign type is refused. *)
Definition demo_server (t : option (list row)) : server :=
  Server (fun _ => true) driver_refuses
         (fun _ => inl FProgramming) (fun _ => inl FProgramming) t.

Definition demo_world (t : option (list row)) : world :=
  World {[ "DB_PASSWORD" := "secret" ]}
        (DbConfig (Some "db.internal") (Some "toggles") (Some "app") 5432)
        None (demo_server t) [].

(** The answers of the [except] clauses of [create_flag]. *)
Definition create_answer (n : pyval) (e : pyexn) : response :=
  if is_integrity_error e then (JError (ErrFlagExists n) None, 409)
  else (JError ErrCreate (Some e), 500).

(** The world once a transaction with table [t] is committed. *)
Definition commit_flags (t : option (list row)) (w : world) : world :=
  set_pg w (set_flags (pg w) t).

(** Events of the [finally] block when both handles are open. *)
Definition closing : list event := [EvCloseCursor; EvCloseConnection].

(** Events of the [finally] block after failure [f] of a statement: nothing
    when the connection broke, since both handles are then closed. *)
Definition closing_after (f : failure) : list event :=
  if breaks_connection f then [] else closing.

Definition print_error (e : pyexn) : printed :=
  if is_operational_error e then PrintConnectionError e else PrintUnexpected e.

Definition status (r : response) : Z := snd r.

(** A world whose password is kept in the secret store. *)
Definition demo_ssm : ssm_service :=
  fun region_name param =>
    if String.eqb region_name "sa-east-1" && String.eqb param "/prod/db/password"
    then Some "s3cr3t" else None.

Definition demo_ssm_world (t : option (list row)) : world :=
  World {[ "DB_PASSWORD" := EmptyString; "DB_PASSWORD_SSM_PARAM" := "/prod/db/password" ]}
        (DbConfig (Some "db.internal") (Some "toggles") (Some "app") 5432)
        (Some demo_ssm) (demo_server t) [].

(** A world without any source for the password. *)
Definition demo_bare_world : world :=
  World ∅ (DbConfig (Some "db.internal") (Some "toggles") (Some "app") 5432)
        None (demo_server None) [].

(** Bodies that are JSON values but not objects, on which the validation of
    [update_flag] raises instead of answering: a number or a boolean has no
    [in]; a string or an array that contains "is_enabled" has no item of that
    name. *)
Definition escapes_validation (data : pyval) : bool :=
  match data with
  | PBool _ | PInt _ | PFloat _ => true
  | PStr s => str_contains "is_enabled" s
  | PList l => existsb (is_str "is_enabled") l
  | PNone | PDict _ => false
  end.

(** Statement [s] is sent to the server between world [w] and world [w']. *)
Definition sent_between (w w' : world) (s : statement) : Prop :=
  exists before after, trace w' = trace w ++ before ++ EvSend s :: after.

(** The table after CREATE TABLE IF NOT EXISTS. *)
Definition created_table (t : option (list row)) : option (list row) :=
  Some (default [] t).

(** Events of [get_db_connection]: the lookup in the secret store and the
    call of [psycopg2.connect]. *)
Definition dialing (e : event) : bool :=
  match e with
  | EvSsmGetParameter _ _ | EvConnect _ => true
  | _ => false
  end.

Definition is_ssm_call (e : event) : bool :=
  match e with
  | EvSsmGetParameter _ _ => true
  | _ => false
  end.

(** Statement [s] breaks the connection of world [w]. *)
Definition connection_lost (w : world) (s : statement) : bool :=
  match fault (pg w) s with
  | Some f => breaks_connection f
  | None => false
  end.

(** Between [w] and [w'] one connection is opened and statements are sent;
    then the cursor and the connection are closed, in this order, unless one
    of the statements broke the connection, after which nothing is closed. *)
Definition closes_connection (w w' : world) : Prop :=
  exists before p sends,
    trace w' = trace w ++ before ++ EvConnect p :: map EvSend sends ++
               (if existsb (connection_lost w) sends then [] else closing) /\
    forallb is_ssm_call before = true /\ accepts (pg w) p = true.

(** Bodies that are JSON values but not objects, on which the validation of
    [create_flag] raises instead of answering: a true boolean or a number
    other than zero has no [in]; a string or an array that contains "name"
    has no item of that name. *)
Definition escapes_create_validation (data : pyval) : bool :=
  match data with
  | PBool _ | PInt _ | PFloat _ => truthy data
  | PStr s => str_contains "name" s
  | PList l => existsb (is_str "name") l
  | PNone | PDict _ => false
  end.

(** The exceptions that [get_db_connection] lets through. *)
Definition raised_by_dialing (e : pyexn) : bool :=
  match e with
  | RuntimeError _ | ClientError | OperationalError => true
  | _ => false
  end.

(** The answer of a handler that obtained no connection: its 500 text with
    the exception, and a trace that only gained the dialing. *)
Definition answered_offline (err : error_text) (w : world) (out : response * world) : Prop :=
  exists evs e,
    out = ((JError err (Some e), 500), extend evs w) /\
    forallb dialing evs = true /\ raised_by_dialing e = true.

(** The keyword arguments that [get_db_connection] passes with password [p]. *)
Definition params_with (w : world) (p : string) : conn_params :=
  ConnParams (DB_HOST (config w)) (DB_PORT (config w)) (DB_NAME (config w))
             (DB_USER (config w)) p.

(** A world whose password is in the secret store while boto3 is missing. *)
Definition demo_no_boto3_world : world :=
  World {[ "DB_PASSWORD_SSM_PARAM" := "/prod/db/password" ]}
        (DbConfig (Some "db.internal") (Some "toggles") (Some "app") 5432)
        None (demo_server None) [].

(** A world whose server refuses every connection. *)
Definition demo_refusing_world : world :=
  World {[ "DB_PASSWORD" := "secret" ]}
        (DbConfig (Some "db.internal") (Some "toggles") (Some "app") 5432)
        None
        (Server (fun _ => false) driver_refuses
                (fun _ => inl FProgramming) (fun _ => inl FProgramming) None) [].

(** A world whose server fails CREATE TABLE. *)
Definition demo_faulty_world : world :=
  World {[ "DB_PASSWORD" := "secret" ]}
        (DbConfig (Some "db.internal") (Some "toggles") (Some "app") 5432)
        None
        (Server (fun _ => true)
                (fun s => match s with
                          | SqlCreateTable => Some FProgramming
                          | _ => driver_refuses s
                          end)
                (fun _ => inl FProgramming) (fun _ => inl FProgramming) None) [].

(** A world whose server closes the connection on the SELECT of all rows. *)
Definition demo_lost_world : world :=
  World {[ "DB_PASSWORD" := "secret" ]}
        (DbConfig (Some "db.internal") (Some "toggles") (Some "app") 5432)
        None
        (Server (fun _ => true)
                (fun s => match s with
                          | SqlSelectAll => Some FConnectionLost
                          | _ => driver_refuses s
                          end)
                (fun _ => inl FProgramming) (fun _ => inl FProgramming) (Some [])) [].

(** A name of 51 characters in 102 bytes: U+00E9, 51 times. *)
Definition accented_name : string :=
  string_of_list_ascii (List.concat (repeat ["195"%char; "169"%char] 51)).

(** A name of three characters, the second of which is NUL. *)
Definition nul_name : string := String "a" (String Ascii.zero (String "b" EmptyString)).

(** A world whose secret store holds an empty value. *)
Definition demo_empty_secret_world : world :=
  World {[ "DB_PASSWORD_SSM_PARAM" := "/prod/db/password" ]}
        (DbConfig (Some "db.internal") (Some "toggles") (Some "app") 5432)
        (Some (fun _ _ => Some EmptyString)) (demo_server None) [].

Ltac run :=
  unfold mbind, M_bind, bind, mret, M_ret, ret, raise, lift, getenv, log in *.

Lemma extend_nil w : extend [] w = w.
Proof. destruct w. unfold extend. cbn. by rewrite app_nil_r. Qed.

Lemma emit_extend e w : emit e w = extend [e] w.
Proof. reflexivity. Qed.

Lemma extend_extend evs evs' w : extend evs' (extend evs w) = extend (evs ++ evs') w.
Proof. unfold extend. cbn. by rewrite app_assoc. Qed.

Lemma get_db_connection_frame m r m' :
  get_db_connection m = (r, m') ->
  (exists evs, m' = Machine (extend evs (W m)) (conn m) (cur m)) /\
  (forall cn, r = Ok cn -> cn = Connection (flags (pg (W m))) false).
Proof.
  destruct m as [w c k].
  unfold get_db_connection, resolve_db_password, get_ssm_parameter, psycopg2_connect.
  run. cbn. intros H.
  repeat (case_match; cbn in *; simplify_eq);
    rewrite ?emit_extend; cbn; rewrite ?extend_extend;
    (split; [first [by eexists | by exists []; rewrite extend_nil] | by intros ? [= <-]]).
Qed.

Lemma connects_same_setup w w' : same_setup w w' -> connects w = connects w'.
Proof.
  destruct w as [env cfg b [a f ct cb t] tr], w' as [env' cfg' b' [a' f' ct' cb' t'] tr'].
  unfold same_setup. cbn. intros (<- & <- & <- & <-).
  unfold connects, start, get_db_connection, resolve_db_password, get_ssm_parameter,
    psycopg2_connect.
  run. cbn.
  repeat (case_match; unfold emit in *; cbn in *; simplify_eq; cbn in * ); congruence.
Qed.

(** A world that connects hands the handler a connection on the committed
    table, and only the trace has grown. *)
Lemma get_db_connection_ok w :
  connects w = true ->
  exists evs, get_db_connection (start w)
              = (Ok (Connection (flags (pg w)) false), Machine (extend evs w) None None).
Proof.
  unfold connects. destruct (get_db_connection (start w)) as [r m'] eqn:E.
  destruct (get_db_connection_frame _ _ _ E) as [[evs ->] Hc]. cbn.
  destruct r as [cn|e]; [|done]. intros _. exists evs. by rewrite (Hc cn eq_refl).
Qed.

Lemma get_db_connection_fails w :
  connects w = false ->
  exists evs e, get_db_connection (start w) = (Raise e, Machine (extend evs w) None None).
Proof.
  unfold connects. destruct (get_db_connection (start w)) as [r m'] eqn:E.
  destruct (get_db_connection_frame _ _ _ E) as [[evs ->] _]. cbn.
  destruct r as [cn|e]; [done|]. intros _. by exists evs, e.
Qed.

Lemma size_lookup_ne_0 {A} (d : gmap string A) k v :
  d !! k = Some v -> Nat.eqb (size d) 0 = false.
Proof.
  intros H. apply Nat.eqb_neq. intros E. apply map_size_empty_inv in E. subst.
  by rewrite lookup_empty in H.
Qed.

Ltac same_world :=
  cbn -[run];
  repeat (progress (unfold commit_flags, set_pg, set_flags, closing_after, closing, emit,
                      extend;
                    cbn -[run]));
  rewrite <- ?app_assoc; cbn -[run]; try reflexivity.

(** ** The handlers, statement by statement *)

(** POST /flags on an object with key "name", in a world that connects. *)
Lemma serve_create_flag w d v :
  connects w = true -> d !! "name" = Some v ->
  exists evs,
    serve (create_flag (PDict d)) w =
    match fault (pg w) (SqlInsert v (default (PBool false) (d !! "is_enabled"))) with
    | Some f => (create_answer v (exn_of f), extend (evs ++ EvSend (SqlInsert v (default (PBool false) (d !! "is_enabled")))
                    :: closing_after f) w)
    | None =>
        match run (pg w) (SqlInsert v (default (PBool false) (d !! "is_enabled")))
                  (flags (pg w)) with
        | Raise e => (create_answer v e, extend (evs ++ EvSend (SqlInsert v (default (PBool false) (d !! "is_enabled")))
                    :: closing) w)
        | Ok (t, _, _) =>
            match fault (pg w) SqlCommit with
            | Some f => (create_answer v (exn_of f),
                         extend (evs ++ EvSend (SqlInsert v (default (PBool false) (d !! "is_enabled")))
                    :: EvSend SqlCommit :: closing_after f) w)
            | None => ((JMessage (MsgCreated v), 201),
                       commit_flags t (extend (evs ++ EvSend (SqlInsert v (default (PBool false) (d !! "is_enabled")))
                    :: EvSend SqlCommit :: closing) w))
            end
        end
    end.
Proof.
  intros Hc Hn. destruct (get_db_connection_ok w Hc) as [evs E]. exists evs.
  unfold serve, create_flag, try_finally, try_except. cbn [truthy py_in py_getitem py_get].
  rewrite (size_lookup_ne_0 _ _ _ Hn). run. cbn [negb].
  rewrite Hn. cbn -[run]. rewrite E. cbn -[run].
  destruct (fault (pg w) (SqlInsert v _)) as [f|] eqn:Ef; cbn -[run].
  { unfold create_answer. destruct f; same_world. }
  destruct (run (pg w) _ (flags (pg w))) as [[[t n] rs]|e] eqn:Er; cbn -[run].
  2: { unfold create_answer. destruct (is_integrity_error e); same_world. }
  destruct (fault (pg w) SqlCommit) as [f|] eqn:Ec; cbn -[run].
  { unfold create_answer. destruct f; same_world. }
  same_world.
Qed.

(** The same request when no connection is obtained: no statement is sent. *)
Lemma serve_create_flag_offline w d v :
  connects w = false -> d !! "name" = Some v ->
  exists evs e, serve (create_flag (PDict d)) w = (create_answer v e, extend evs w).
Proof.
  intros Hc Hn. destruct (get_db_connection_fails w Hc) as (evs & e & E). exists evs, e.
  unfold serve, create_flag, try_finally, try_except. cbn [truthy py_in py_getitem py_get].
  rewrite (size_lookup_ne_0 _ _ _ Hn). run. cbn [negb].
  rewrite Hn. cbn -[run]. rewrite E. cbn -[run].
  unfold create_answer. destruct (is_integrity_error e); same_world.
Qed.

(** GET /flags/<name> in a world that connects. *)
Lemma serve_get_flag_status w n :
  connects w = true ->
  exists evs,
    serve (get_flag_status n) w =
    match fault (pg w) (SqlSelectOne n) with
    | Some f => ((JError ErrGet (Some (exn_of f)), 500), extend (evs ++ EvSend (SqlSelectOne n)
                    :: closing_after f) w)
    | None =>
        match run (pg w) (SqlSelectOne n) (flags (pg w)) with
        | Raise e => ((JError ErrGet (Some e), 500), extend (evs ++ EvSend (SqlSelectOne n)
                    :: closing) w)
        | Ok (_, _, rs) =>
            (match head rs with
             | Some flag => (JFlag flag, 200)
             | None => (JError ErrNotFound None, 404)
             end, extend (evs ++ EvSend (SqlSelectOne n)
                    :: closing) w)
        end
    end.
Proof.
  intros Hc. destruct (get_db_connection_ok w Hc) as [evs E]. exists evs.
  unfold serve, get_flag_status, try_finally, try_except. run. cbn -[run].
  rewrite E. cbn -[run].
  destruct (fault (pg w) (SqlSelectOne n)) as [f|] eqn:Ef; cbn -[run]; [destruct f; same_world|].
  destruct (run (pg w) _ (flags (pg w))) as [[[t c] rs]|e] eqn:Er; cbn -[run]; [|same_world].
  destruct (head rs); same_world.
Qed.

(** GET /flags in a world that connects. *)
Lemma serve_get_flags w :
  connects w = true ->
  exists evs,
    serve get_flags w =
    match fault (pg w) SqlSelectAll with
    | Some f => ((JError ErrList (Some (exn_of f)), 500), extend (evs ++ EvSend SqlSelectAll
                    :: closing_after f) w)
    | None =>
        match run (pg w) SqlSelectAll (flags (pg w)) with
        | Raise e => ((JError ErrList (Some e), 500), extend (evs ++ EvSend SqlSelectAll
                    :: closing) w)
        | Ok (_, _, rs) => ((JFlags rs, 200), extend (evs ++ EvSend SqlSelectAll
                    :: closing) w)
        end
    end.
Proof.
  intros Hc. destruct (get_db_connection_ok w Hc) as [evs E]. exists evs.
  unfold serve, get_flags, try_finally, try_except. run. cbn -[run].
  rewrite E. cbn -[run].
  destruct (fault (pg w) SqlSelectAll) as [f|] eqn:Ef; cbn -[run]; [destruct f; same_world|].
  destruct (run (pg w) _ (flags (pg w))) as [[[t c] rs]|e] eqn:Er; cbn -[run]; same_world.
Qed.

(** PUT /flags/<name> on an object whose "is_enabled" is a boolean, in a world
    that connects. *)
Lemma serve_update_flag w n d b :
  connects w = true -> d !! "is_enabled" = Some (PBool b) ->
  exists evs,
    serve (update_flag n (PDict d)) w =
    match fault (pg w) (SqlUpdate (PBool b) n) with
    | Some f => ((JError ErrUpdate (Some (exn_of f)), 500), extend (evs ++ EvSend (SqlUpdate (PBool b) n)
                    :: closing_after f) w)
    | None =>
        match run (pg w) (SqlUpdate (PBool b) n) (flags (pg w)) with
        | Raise e => ((JError ErrUpdate (Some e), 500), extend (evs ++ EvSend (SqlUpdate (PBool b) n)
                    :: closing) w)
        | Ok (t, c, _) =>
            if Z.eqb c 0
            then ((JError ErrNotFound None, 404), extend (evs ++ EvSend (SqlUpdate (PBool b) n)
                    :: closing) w)
            else
              match fault (pg w) SqlCommit with
              | Some f => ((JError ErrUpdate (Some (exn_of f)), 500),
                           extend (evs ++ EvSend (SqlUpdate (PBool b) n)
                    :: EvSend SqlCommit :: closing_after f) w)
              | None => ((JMessage (MsgUpdated n), 200),
                         commit_flags t (extend (evs ++ EvSend (SqlUpdate (PBool b) n)
                    :: EvSend SqlCommit :: closing) w))
              end
        end
    end.
Proof.
  intros Hc Hn. destruct (get_db_connection_ok w Hc) as [evs E]. exists evs.
  unfold serve, update_flag, try_finally, try_except. cbn [is_none py_in py_getitem].
  run. rewrite Hn. cbn -[run]. rewrite E. cbn -[run].
  destruct (fault (pg w) (SqlUpdate _ n)) as [f|] eqn:Ef; cbn -[run]; [destruct f; same_world|].
  destruct (run (pg w) _ (flags (pg w))) as [[[t c] rs]|e] eqn:Er; cbn -[run]; [|same_world].
  destruct (Z.eqb c 0); cbn -[run]; [same_world|].
  destruct (fault (pg w) SqlCommit) as [f|] eqn:Ec; cbn -[run]; [destruct f|]; same_world.
Qed.

(** ** The statements on well-typed parameters *)

Lemma char_length_le_length s : (char_length s <= String.length s)%nat.
Proof. induction s as [|c s IH]; cbn; [lia|]. destruct (is_continuation c); lia. Qed.

Lemma varchar100_short s : (char_length s <= 100)%nat -> varchar100 s = Ok s.
Proof. intros H. unfold varchar100. by rewrite (proj2 (Nat.leb_le _ _) H). Qed.

Lemma run_insert sv n b rows :
  (char_length n <= 100)%nat ->
  run sv (SqlInsert (PStr n) (PBool b)) (Some rows) =
  if existsb (has_name n) rows then Raise (IntegrityError UniqueViolation)
  else Ok (Some (rows ++ [Row n b]), 1, []).
Proof. intros H. cbn -[varchar100]. by rewrite (varchar100_short n H). Qed.

Lemma has_name_refl n b : has_name n (Row n b) = true.
Proof. unfold has_name. cbn. apply String.eqb_refl. Qed.

Lemma filter_absent n rows :
  existsb (has_name n) rows = false -> List.filter (has_name n) rows = [].
Proof.
  induction rows as [|r rows IH]; [done|]. cbn. intros H.
  apply orb_false_iff in H as [Hr Hrows]. rewrite Hr. auto.
Qed.


Lemma run_update_absent sv n b rows :
  existsb (has_name n) rows = false ->
  exists t, run sv (SqlUpdate (PBool b) n) (Some rows) = Ok (t, 0, []).
Proof.
  intros H. cbn -[List.filter]. rewrite (filter_absent n rows H). by eexists.
Qed.

Lemma connects_commit_extend t evs w : connects (commit_flags t (extend evs w)) = connects w.
Proof. apply connects_same_setup. by repeat split. Qed.

Lemma connects_extend evs w : connects (extend evs w) = connects w.
Proof. apply connects_same_setup. by repeat split. Qed.

#[export] Instance row_le_trans : Transitive row_le.
Proof. intros r1 r2 r3. unfold row_le. apply transitivity. Qed.

#[export] Instance row_le_total : Total row_le.
Proof. intros r1 r2. unfold row_le. apply total, _. Qed.

(** ** Create, then get *)



(** The bound of the column is on characters: a fresh name of 51 characters
    in 102 bytes is valid and stored. *)
Example create_accented_name :
  valid_name accented_name /\ String.length accented_name = 102%nat /\
  fst (serve (create_flag (PDict {[ "name" := PStr accented_name ]})) (demo_world (Some [])))
  = (JMessage (MsgCreated (PStr accented_name)), 201).
Proof. repeat split; try reflexivity. vm_compute; lia. Qed.

(** A name that holds NUL is not valid: the driver refuses it and create
    answers 500. *)
Example create_nul_name_refused :
  ~ valid_name nul_name /\
  fst (serve (create_flag (PDict {[ "name" := PStr nul_name ]})) (demo_world (Some [])))
  = (JError ErrCreate (Some ValueError), 500).
Proof. split; [|reflexivity]. intros (_ & _ & H & _). discriminate H. Qed.

(** ** Create: conflicts and other failures *)

(** On a request of the documented types, in a store that runs the INSERT, a
    stored name is answered with 409 and nothing is committed. *)
Lemma create_stored_name_conflict (w : world) (rows : list row) (d : gmap string pyval)
    (n : string) (o : option bool) :
  connects w = true ->
  fault (pg w) (SqlInsert (PStr n) (PBool (default false o))) = None ->
  flags (pg w) = Some rows ->
  (char_length n <= 100)%nat ->
  existsb (has_name n) rows = true ->
  d !! "name" = Some (PStr n) -> d !! "is_enabled" = PBool <$> o ->
  fst (serve (create_flag (PDict d)) w) = (JError (ErrFlagExists (PStr n)) None, 409) /\
  pg (snd (serve (create_flag (PDict d)) w)) = pg w.
Proof.
  intros Hc Hfi Ht Hlen Hin Hn He.
  destruct (serve_create_flag w d _ Hc Hn) as [evs E].
  assert (default (PBool false) (PBool <$> o) = PBool (default false o)) as Hd by by destruct o.
  rewrite He, Hd, Hfi, Ht, (run_insert _ _ _ _ Hlen), Hin in E. by rewrite E.
Qed.

(** Creating the same name twice: the second attempt is answered with 409. *)
Lemma create_twice_conflict (w : world) (rows : list row) (d : gmap string pyval)
    (n : string) (o : option bool) :
  connects w = true ->
  fault (pg w) (SqlInsert (PStr n) (PBool (default false o))) = None ->
  fault (pg w) SqlCommit = None ->
  flags (pg w) = Some rows ->
  (char_length n <= 100)%nat ->
  existsb (has_name n) rows = false ->
  d !! "name" = Some (PStr n) -> d !! "is_enabled" = PBool <$> o ->
  status (fst (serve (create_flag (PDict d)) w)) = 201 /\
  status (fst (serve (create_flag (PDict d)) (snd (serve (create_flag (PDict d)) w)))) = 409.
Proof.
  intros Hc Hfi Hfc Ht Hlen Hfresh Hn He.
  destruct (serve_create_flag w d _ Hc Hn) as [evs E].
  assert (default (PBool false) (PBool <$> o) = PBool (default false o)) as Hd by by destruct o.
  rewrite He, Hd, Hfi, Hfc, Ht, (run_insert _ _ _ _ Hlen), Hfresh in E. rewrite E.
  split; [done|]. cbn [snd].
  match goal with |- context [serve _ ?w1] => set (w1' := w1) end.
  assert (Hstored : existsb (has_name n) (rows ++ [Row n (default false o)]) = true).
  { rewrite existsb_app. cbn -[has_name]. by rewrite has_name_refl, orb_true_r. }
  destruct (create_stored_name_conflict w1' (rows ++ [Row n (default false o)]) d n o)
    as [-> _]; try done.
  unfold w1'. by rewrite connects_commit_extend.
Qed.

(** A failure of the store that is not a violation of the schema is answered
    with 500 and the text of the exception. *)
Lemma create_store_failure (w : world) (d : gmap string pyval) (v : pyval) (f : failure) :
  connects w = true -> d !! "name" = Some v ->
  fault (pg w) (SqlInsert v (default (PBool false) (d !! "is_enabled"))) = Some f ->
  fst (serve (create_flag (PDict d)) w) = (JError ErrCreate (Some (exn_of f)), 500).
Proof.
  intros Hc Hn Hf. destruct (serve_create_flag w d _ Hc Hn) as [evs E].
  rewrite Hf in E. rewrite E. by destruct f.
Qed.

(** C2 (the code departs from the claim): a body whose "is_enabled" is null,
    for a name that is not stored, violates NOT NULL; the handler answers 409
    with the text that the flag exists. *)
Theorem create_null_is_enabled_conflict (w : world) (rows : list row) (n : string) :
  connects w = true ->
  fault (pg w) (SqlInsert (PStr n) PNone) = None ->
  flags (pg w) = Some rows ->
  (char_length n <= 100)%nat ->
  existsb (has_name n) rows = false ->
  fst (serve (create_flag (PDict {[ "name" := PStr n; "is_enabled" := PNone ]})) w)
  = (JError (ErrFlagExists (PStr n)) None, 409).
Proof.
  intros Hc Hfi Ht Hlen Hfresh.
  destruct (serve_create_flag w {[ "name" := PStr n; "is_enabled" := PNone ]} (PStr n) Hc)
    as [evs E]; [done|].
  assert (({[ "name" := PStr n; "is_enabled" := PNone ]} : gmap string pyval) !! "is_enabled"
          = Some PNone) as Hl by done.
  rewrite Hl in E. cbn [default] in E. unfold id in E. rewrite Hfi, Ht in E. rewrite E.
  cbn -[varchar100]. by rewrite (varchar100_short n Hlen).
Qed.

Lemma create_null_is_enabled_conflict_witness :
  fst (serve (create_flag (PDict {[ "name" := PStr "x"; "is_enabled" := PNone ]}))
             (demo_world (Some [])))
  = (JError (ErrFlagExists (PStr "x")) None, 409).
Proof.
  apply (create_null_is_enabled_conflict (demo_world (Some [])) [] "x").
  - vm_compute; reflexivity.
  - reflexivity.
  - reflexivity.
  - vm_compute; lia.
  - reflexivity.
Defined.

(** ** Update: validation of the body *)

Lemma serve_update_flag_offline w n d b :
  connects w = false -> d !! "is_enabled" = Some (PBool b) ->
  exists evs e, serve (update_flag n (PDict d)) w
                = ((JError ErrUpdate (Some e), 500), extend evs w).
Proof.
  intros Hc Hn. destruct (get_db_connection_fails w Hc) as (evs & e & E). exists evs, e.
  unfold serve, update_flag, try_finally, try_except. cbn [is_none py_in py_getitem].
  run. rewrite Hn. cbn -[run]. rewrite E. cbn -[run]. same_world.
Qed.

(** For a body that is absent or an object, 400 is answered exactly when the
    body is absent, has no "is_enabled", or has one that is not a [bool]; the
    world is then left as it was. *)
Lemma update_object_body_rejected (n : string) (data : pyval) (w : world) :
  data = PNone \/ (exists d, data = PDict d) ->
  (status (fst (serve (update_flag n data) w)) = 400 <->
   data = PNone \/
   exists d, data = PDict d /\
             (d !! "is_enabled" = None \/
              exists v, d !! "is_enabled" = Some v /\ isinstance_bool v = false)) /\
  (status (fst (serve (update_flag n data) w)) = 400 -> snd (serve (update_flag n data) w) = w).
Proof.
  intros [->|[d ->]].
  { cbn. split; [split; auto|done]. }
  destruct (d !! "is_enabled") as [v|] eqn:Ev.
  2: { unfold serve, update_flag. cbn [is_none py_in]. run. rewrite Ev. cbn.
       split; [split; [intros _; right; exists d; auto|done]|done]. }
  destruct v as [| b | k | bits | s | l | d'].
  2: { (* a boolean: never 400 *)
       assert (status (fst (serve (update_flag n (PDict d)) w)) <> 400) as Hne.
       { destruct (connects w) eqn:Hc.
         - destruct (serve_update_flag w n d b Hc Ev) as [evs E]. rewrite E.
           repeat case_match; cbn; lia.
         - destruct (serve_update_flag_offline w n d b Hc Ev) as (evs & e & E). by rewrite E. }
       split; [split; [done|]|done].
       intros [?|(d0 & [= <-] & [?|(v & ? & ?)])]; [done|congruence|]. by simplify_eq. }
  all: unfold serve, update_flag; cbn [is_none py_in py_getitem]; run; rewrite Ev; cbn;
    (split; [split; [intros _; right; exists d; split; [done|right; eauto]|done]|done]).
Qed.

(** C3 (the code departs from the claim): a body that is a JSON number or
    boolean has no "is_enabled", yet the membership test raises [TypeError];
    so does the subscription on a string or an array that contains
    "is_enabled".  The exception leaves the view and the answer is 500, not
    400.  No statement is sent. *)
Theorem update_non_object_body_unhandled (n : string) (data : pyval) (w : world) :
  escapes_validation data = true ->
  serve (update_flag n data) w = ((JUnhandled TypeError, 500), w).
Proof.
  intros H. unfold serve, update_flag.
  destruct data as [| b | k | bits | s | l | d]; try discriminate H; try reflexivity.
  - cbn [is_none py_in escapes_validation] in *. run. by rewrite H.
  - cbn [is_none py_in escapes_validation] in *. run. by rewrite H.
Qed.

Lemma update_non_object_body_unhandled_witness :
  serve (update_flag "x" (PInt 5)) (demo_world (Some [Row "x" false]))
  = ((JUnhandled TypeError, 500), demo_world (Some [Row "x" false])).
Proof.
  apply (update_non_object_body_unhandled "x" (PInt 5) (demo_world (Some [Row "x" false]))).
  reflexivity.
Defined.

(** ** Update of a name that is not stored *)

(** C4: for every name that is not stored, update answers 404 and the server
    is left as it was: no row is added and none is changed. *)
Theorem update_missing_flag (w : world) (rows : list row) (d : gmap string pyval)
    (n : string) (b : bool) :
  connects w = true -> fault (pg w) (SqlUpdate (PBool b) n) = None ->
  flags (pg w) = Some rows ->
  existsb (has_name n) rows = false ->
  d !! "is_enabled" = Some (PBool b) ->
  fst (serve (update_flag n (PDict d)) w) = (JError ErrNotFound None, 404) /\
  pg (snd (serve (update_flag n (PDict d)) w)) = pg w /\
  flags (pg (snd (serve (update_flag n (PDict d)) w))) = Some rows.
Proof.
  intros Hc Hf Ht Hfresh He.
  destruct (serve_update_flag w n d b Hc He) as [evs E].
  destruct (run_update_absent (pg w) n b rows Hfresh) as [t Er].
  rewrite E, Hf, Ht, Er. cbn. by rewrite Ht.
Qed.

Lemma update_missing_flag_witness :
  let w := demo_world (Some [Row "a" true]) in
  let d : gmap string pyval := {[ "is_enabled" := PBool false ]} in
  fst (serve (update_flag "zz" (PDict d)) w) = (JError ErrNotFound None, 404) /\
  pg (snd (serve (update_flag "zz" (PDict d)) w)) = pg w /\
  flags (pg (snd (serve (update_flag "zz" (PDict d)) w))) = Some [Row "a" true].
Proof.
  apply (update_missing_flag (demo_world (Some [Row "a" true])) [Row "a" true]
           {[ "is_enabled" := PBool false ]} "zz" false).
  - vm_compute; reflexivity.
  - reflexivity.
  - reflexivity.
  - reflexivity.
  - vm_compute; reflexivity.
Defined.

(** ** Listing *)

Lemma run_select_all sv rows :
  run sv SqlSelectAll (Some rows)
  = Ok (Some rows, Z.of_nat (List.length rows), order_by_name rows).
Proof. reflexivity. Qed.

(** C5: in every state of the table, list answers 200 with the name and
    [is_enabled] of every flag, ordered by name; with no flag the sequence is
    empty; after creating "b" then "a" the answer is "a", "b". *)
Theorem list_sorted_by_name (w : world) (rows : list row) :
  connects w = true -> fault (pg w) SqlSelectAll = None -> flags (pg w) = Some rows ->
  (exists l, fst (serve get_flags w) = (JFlags l, 200) /\
             l ≡ₚ rows /\ StronglySorted row_le l /\ (rows = [] -> l = [])) /\
  (let w0 := demo_world (Some []) in
   let w1 := snd (serve (create_flag (PDict {[ "name" := PStr "b" ]})) w0) in
   let w2 := snd (serve (create_flag (PDict {[ "name" := PStr "a" ]})) w1) in
   fst (serve get_flags w2) = (JFlags [Row "a" false; Row "b" false], 200)).
Proof.
  intros Hc Hf Ht. split; [|vm_compute; reflexivity].
  destruct (serve_get_flags w Hc) as [evs E].
  rewrite E, Hf, Ht, run_select_all. exists (order_by_name rows).
  unfold order_by_name. split; [done|]. split; [apply merge_sort_Permutation|].
  split; [apply (StronglySorted_merge_sort _)|]. by intros ->.
Qed.

Lemma list_sorted_by_name_witness :
  exists l, fst (serve get_flags (demo_world (Some [Row "b" true; Row "a" false])))
            = (JFlags l, 200) /\
            l ≡ₚ [Row "b" true; Row "a" false] /\ StronglySorted row_le l /\
            ([Row "b" true; Row "a" false] = [] -> l = []).
Proof.
  apply (list_sorted_by_name (demo_world (Some [Row "b" true; Row "a" false]))
           [Row "b" true; Row "a" false]).
  - vm_compute; reflexivity.
  - reflexivity.
  - reflexivity.
Defined.

(** ** Resolution of the password *)

Lemma opt_truthy_some p : p <> EmptyString -> opt_truthy (Some p) = true.
Proof. intros H. cbn. by apply negb_true_iff, String.eqb_neq. Qed.

Lemma or_else_some a b r : a = Some r -> r <> EmptyString -> or_else a b = r.
Proof. intros -> H. cbn. by rewrite (proj2 (String.eqb_neq r EmptyString) H). Qed.

Lemma or_else_falsy a b : opt_truthy a = false -> or_else a b = b.
Proof. destruct a as [r|]; cbn; [|done]. by destruct (String.eqb r EmptyString). Qed.

Lemma resolve_db_password_absent m :
  opt_truthy (environ (W m) !! "DB_PASSWORD") = false ->
  opt_truthy (environ (W m) !! "DB_PASSWORD_SSM_PARAM") = false ->
  resolve_db_password m = (Ok None, m).
Proof.
  intros H H0. unfold resolve_db_password. run. rewrite H.
  destruct (environ (W m) !! "DB_PASSWORD_SSM_PARAM") as [q|]; [|done].
  cbn in H0. by destruct (String.eqb q EmptyString).
Qed.

(** C6: a configured, non-empty password is returned as it is; otherwise a
    configured identifier is looked up in the secret store, under AWS_REGION,
    else AWS_DEFAULT_REGION, else "sa-east-1", and the value found is
    returned; otherwise the result is [None], and [get_db_connection] raises
    its configuration error without calling [psycopg2.connect]. *)
Theorem password_resolution (m : machine) :
  let env := environ (W m) in
  let region :=
    or_else (env !! "AWS_REGION") (or_else (env !! "AWS_DEFAULT_REGION") "sa-east-1") in
  (forall p, env !! "DB_PASSWORD" = Some p -> p <> EmptyString ->
             resolve_db_password m = (Ok (Some p), m)) /\
  (opt_truthy (env !! "DB_PASSWORD") = false ->
   forall q, env !! "DB_PASSWORD_SSM_PARAM" = Some q -> q <> EmptyString ->
   forall ssm value, boto3 (W m) = Some ssm -> ssm region q = Some value ->
     resolve_db_password m
     = (Ok (Some value),
        Machine (emit (EvSsmGetParameter region q) (W m)) (conn m) (cur m))) /\
  (forall r, env !! "AWS_REGION" = Some r -> r <> EmptyString -> region = r) /\
  (opt_truthy (env !! "AWS_REGION") = false ->
   forall r, env !! "AWS_DEFAULT_REGION" = Some r -> r <> EmptyString -> region = r) /\
  (opt_truthy (env !! "AWS_REGION") = false ->
   opt_truthy (env !! "AWS_DEFAULT_REGION") = false -> region = "sa-east-1") /\
  (opt_truthy (env !! "DB_PASSWORD") = false ->
   opt_truthy (env !! "DB_PASSWORD_SSM_PARAM") = false ->
     resolve_db_password m = (Ok None, m) /\
     get_db_connection m = (Raise (RuntimeError PasswordUnresolved), m)).
Proof.
  cbn zeta. repeat split.
  - intros p Hp Hne. unfold resolve_db_password. run.
    by rewrite Hp, (opt_truthy_some p Hne).
  - intros Hp q Hq Hne ssm value Hb Hv. unfold resolve_db_password, get_ssm_parameter. run.
    rewrite Hp, Hq, (proj2 (String.eqb_neq q EmptyString) Hne), Hb, Hv. reflexivity.
  - intros r Hr Hne. by apply or_else_some.
  - intros H1 r Hr Hne. rewrite (or_else_falsy _ _ H1). by apply or_else_some.
  - intros H1 H2. by rewrite (or_else_falsy _ _ H1), (or_else_falsy _ _ H2).
  - by apply resolve_db_password_absent.
  - unfold get_db_connection. run. by rewrite resolve_db_password_absent.
Qed.

Lemma password_resolution_witness :
  resolve_db_password (start (demo_world None)) = (Ok (Some "secret"), start (demo_world None)) /\
  resolve_db_password (start (demo_ssm_world None))
  = (Ok (Some "s3cr3t"),
     Machine (emit (EvSsmGetParameter "sa-east-1" "/prod/db/password") (demo_ssm_world None))
             None None) /\
  get_db_connection (start demo_bare_world)
  = (Raise (RuntimeError PasswordUnresolved), start demo_bare_world).
Proof.
  split; [|split].
  - apply (proj1 (password_resolution (start (demo_world None))) "secret");
      [vm_compute; reflexivity | discriminate].
  - apply (proj1 (proj2 (password_resolution (start (demo_ssm_world None))))
             ltac:(vm_compute; reflexivity) "/prod/db/password"
             ltac:(vm_compute; reflexivity) ltac:(discriminate) demo_ssm "s3cr3t"
             ltac:(reflexivity) ltac:(vm_compute; reflexivity)).
  - apply (proj2 (proj2 (proj2 (proj2 (proj2 (password_resolution (start demo_bare_world)))))));
      vm_compute; reflexivity.
Defined.

(** C10: an empty DB_PASSWORD counts as no password: resolution goes on to
    the lookup in the secret store when an identifier is configured, and
    gives [None] when none is; the empty string is not returned as the
    configured password. *)
Theorem empty_password_is_absent (m : machine) :
  environ (W m) !! "DB_PASSWORD" = Some EmptyString ->
  let env := environ (W m) in
  let region :=
    or_else (env !! "AWS_REGION") (or_else (env !! "AWS_DEFAULT_REGION") "sa-east-1") in
  (forall q, env !! "DB_PASSWORD_SSM_PARAM" = Some q -> q <> EmptyString ->
     resolve_db_password m = (v ← get_ssm_parameter q region; mret (Some v)) m) /\
  (opt_truthy (env !! "DB_PASSWORD_SSM_PARAM") = false ->
     resolve_db_password m = (Ok None, m)) /\
  (forall r, fst (resolve_db_password m) = Ok r ->
     r = None \/
     exists ssm q, boto3 (W m) = Some ssm /\ env !! "DB_PASSWORD_SSM_PARAM" = Some q /\
                   r = ssm region q).
Proof.
  intros Hp. cbn zeta. split; [|split].
  - intros q Hq Hne. unfold resolve_db_password. run.
    rewrite Hp. cbn. by rewrite Hq, (proj2 (String.eqb_neq q EmptyString) Hne).
  - intros H. apply resolve_db_password_absent; [by rewrite Hp|done].
  - intros r. unfold resolve_db_password, get_ssm_parameter. run. rewrite Hp. cbn.
    destruct (environ (W m) !! "DB_PASSWORD_SSM_PARAM") as [q|] eqn:Eq; [|cbn; intros [= <-]; auto].
    destruct (String.eqb q EmptyString); [cbn; intros [= <-]; auto|].
    destruct (boto3 (W m)) as [ssm|] eqn:Eb; [|done].
    match goal with |- context [ssm ?rg q] => destruct (ssm rg q) as [value|] eqn:Ev end;
      [|done].
    cbn. intros [= <-]. right. exists ssm, q. by rewrite Ev.
Qed.

Lemma empty_password_is_absent_witness :
  resolve_db_password (start (demo_ssm_world None))
  = (v ← get_ssm_parameter "/prod/db/password" "sa-east-1"; mret (Some v))
      (start (demo_ssm_world None)).
Proof.
  apply (proj1 (empty_password_is_absent (start (demo_ssm_world None))
                  ltac:(vm_compute; reflexivity)) "/prod/db/password");
    [vm_compute; reflexivity | discriminate].
Defined.

(** ** Bootstrap of the schema *)

Lemma run_create_table sv t : run sv SqlCreateTable t = Ok (created_table t, -1, []).
Proof. by destruct t. Qed.

Lemma commit_same_flags w : commit_flags (flags (pg w)) w = w.
Proof. by destruct w as [e c b [a f ct cb t] tr]. Qed.

(** [init_db], statement by statement. *)
Lemma call_init_db w :
  exists evs e,
    call init_db w =
    if connects w
    then
      match fault (pg w) SqlCreateTable with
      | Some f =>
          (Ok tt, extend (EvPrint PrintTrying :: evs
                          ++ [EvSend SqlCreateTable; EvPrint (print_error (exn_of f))]) w)
      | None =>
          match fault (pg w) SqlCommit with
          | Some f =>
              (Ok tt, extend (EvPrint PrintTrying :: evs
                              ++ [EvSend SqlCreateTable; EvSend SqlCommit;
                                  EvPrint (print_error (exn_of f))]) w)
          | None =>
              (Ok tt, commit_flags (created_table (flags (pg w)))
                        (extend (EvPrint PrintTrying :: evs
                                 ++ [EvSend SqlCreateTable; EvSend SqlCommit;
                                     EvCloseCursor; EvCloseConnection; EvPrint PrintDone]) w))
          end
      end
    else (Ok tt, extend (EvPrint PrintTrying :: evs ++ [EvPrint (print_error e)]) w).
Proof.
  pose proof (connects_extend [EvPrint PrintTrying] w) as Hx.
  unfold call, init_db, try_except. run. cbn -[run].
  change (Machine (emit (EvPrint PrintTrying) w) None None)
    with (start (extend [EvPrint PrintTrying] w)).
  destruct (connects w) eqn:Hc.
  - destruct (get_db_connection_ok _ Hx) as [evs E]. exists evs, TypeError.
    rewrite E. cbn -[run].
    destruct (fault (pg w) SqlCreateTable) as [f|]; cbn -[run].
    { unfold print_error. destruct (is_operational_error (exn_of f)); same_world. }
    rewrite run_create_table. cbn -[run].
    destruct (fault (pg w) SqlCommit) as [f|]; cbn -[run].
    { unfold print_error. destruct (is_operational_error (exn_of f)); same_world. }
    same_world.
  - destruct (get_db_connection_fails _ Hx) as (evs & e & E). exists evs, e.
    rewrite E. cbn -[run].
    unfold print_error. destruct (is_operational_error e); same_world.
Qed.

(** C7: [init_db] always returns to its caller, whatever fails, and ends by
    printing either the success line or the line for the exception it caught;
    when table [flags] exists the server is left as it was; and a second run
    leaves the server as the first run left it. *)
Theorem init_db_idempotent_and_quiet (w : world) :
  let once := call init_db w in
  let twice := call init_db (snd once) in
  fst once = Ok tt /\ fst twice = Ok tt /\
  (is_Some (flags (pg w)) -> pg (snd once) = pg w) /\
  pg (snd twice) = pg (snd once) /\
  (exists evs p,
     trace (snd once) = trace w ++ EvPrint PrintTrying :: evs ++ [EvPrint p] /\
     (p = PrintDone \/ exists e, p = print_error e) /\
     (p = PrintDone -> is_Some (flags (pg (snd once)))) /\
     (connects w = false -> exists e, p = print_error e)).
Proof.
  cbn zeta.
  assert (forall w0, fst (call init_db w0) = Ok tt) as Hquiet.
  { intros w0. destruct (call_init_db w0) as (evs & e & ->). by repeat case_match. }
  assert (forall w0, is_Some (flags (pg w0)) -> pg (snd (call init_db w0)) = pg w0) as Hsame.
  { intros w0 [rows Hr]. destruct (call_init_db w0) as (evs & e & ->).
    repeat case_match; try done. cbn. rewrite Hr. destruct (pg w0); cbn in *. by subst. }
  split; [apply Hquiet|]. split; [apply Hquiet|]. split; [apply Hsame|]. split.
  - destruct (call_init_db w) as (evs & e & E).
    destruct (connects w) eqn:Hc; [|rewrite E; cbn;
      destruct (call_init_db (extend (EvPrint PrintTrying :: evs ++ [EvPrint (print_error e)]) w))
        as (evs' & e' & ->); rewrite connects_extend, Hc; done].
    destruct (fault (pg w) SqlCreateTable) as [f|] eqn:Ef.
    { rewrite E. cbn -[call]. match goal with |- context [call init_db ?w1] =>
        destruct (call_init_db w1) as (evs' & e' & ->) end.
      rewrite connects_extend, Hc. cbn. by rewrite Ef. }
    destruct (fault (pg w) SqlCommit) as [f|] eqn:Ec.
    { rewrite E. cbn -[call]. match goal with |- context [call init_db ?w1] =>
        destruct (call_init_db w1) as (evs' & e' & ->) end.
      rewrite connects_extend, Hc. cbn. by rewrite Ef, Ec. }
    rewrite E. cbn -[call]. apply Hsame. cbn. by eexists.
  - destruct (call_init_db w) as (evs & e & E). rewrite E.
    destruct (connects w) eqn:Hc.
    + destruct (fault (pg w) SqlCreateTable) as [f|] eqn:Ef; [|
        destruct (fault (pg w) SqlCommit) as [f|] eqn:Ec].
      * exists (evs ++ [EvSend SqlCreateTable]), (print_error (exn_of f)). cbn.
        rewrite <- !app_assoc. cbn. split; [done|]. split; [eauto|].
        split; [by destruct f|done].
      * exists (evs ++ [EvSend SqlCreateTable; EvSend SqlCommit]), (print_error (exn_of f)).
        cbn. rewrite <- !app_assoc. cbn. split; [done|]. split; [eauto|].
        split; [by destruct f|done].
      * exists (evs ++ [EvSend SqlCreateTable; EvSend SqlCommit; EvCloseCursor;
                        EvCloseConnection]), PrintDone.
        cbn. rewrite <- !app_assoc. cbn. split; [done|]. split; [auto|].
        split; [by eexists|done].
    + exists evs, (print_error e). cbn. split; [done|]. split; [eauto|].
      split; [|eauto]. unfold print_error. by destruct (is_operational_error e).
Qed.

(** ** Create: what is not validated *)

Lemma sent_between_extend w evs s after :
  sent_between w (extend (evs ++ EvSend s :: after) w) s.
Proof. exists evs, after. reflexivity. Qed.

Lemma sent_between_commit w w' t s : sent_between w w' s -> sent_between w (commit_flags t w') s.
Proof. intros (b & a & H). exists b, a. exact H. Qed.

(** An object with key "name" is never answered with 400, and once a
    connection is obtained the INSERT is sent with the two values as they
    came. *)
Lemma create_object_sends_insert (w : world) (d : gmap string pyval) (v : pyval) :
  d !! "name" = Some v ->
  status (fst (serve (create_flag (PDict d)) w)) <> 400 /\
  (connects w = true ->
   sent_between w (snd (serve (create_flag (PDict d)) w))
     (SqlInsert v (default (PBool false) (d !! "is_enabled")))).
Proof.
  intros Hn. destruct (connects w) eqn:Hc.
  - destruct (serve_create_flag w d v Hc Hn) as [evs ->]. split.
    + unfold create_answer. repeat case_match; cbn; lia.
    + intros _. repeat case_match; cbn [snd];
        try apply sent_between_commit; apply sent_between_extend.
  - destruct (serve_create_flag_offline w d v Hc Hn) as (evs & e & ->). split; [|done].
    unfold create_answer. case_match; cbn; lia.
Qed.

(** C8: the validation of create looks only for the key "name", whatever its
    value: such a body is not answered with 400 and, once connected, the
    INSERT is attempted with that value.  The witness is the body whose
    "name" is the empty string. *)
Theorem create_checks_name_presence_only (w : world) (d : gmap string pyval) (v : pyval) :
  d !! "name" = Some v ->
  status (fst (serve (create_flag (PDict d)) w)) <> 400 /\
  (connects w = true ->
   exists e, sent_between w (snd (serve (create_flag (PDict d)) w)) (SqlInsert v e)).
Proof.
  intros Hn. destruct (create_object_sends_insert w d v Hn) as [H4 Hs].
  split; [done|]. intros Hc. eexists. by apply Hs.
Qed.

Lemma create_checks_name_presence_only_witness :
  let d : gmap string pyval := {[ "name" := PStr EmptyString ]} in
  let w := demo_world (Some []) in
  status (fst (serve (create_flag (PDict d)) w)) <> 400 /\
  (connects w = true ->
   exists e, sent_between w (snd (serve (create_flag (PDict d)) w))
               (SqlInsert (PStr EmptyString) e)).
Proof.
  apply (create_checks_name_presence_only (demo_world (Some []))
           {[ "name" := PStr EmptyString ]} (PStr EmptyString)).
  vm_compute; reflexivity.
Defined.

(** C9: create never looks at the type of "is_enabled": with "name" present,
    any value of "is_enabled", boolean or not, null included, is not answered
    with 400 and is sent to the store as it came; update answers the same
    value with 400 when it is not a [bool], without touching the world. *)
Theorem create_forwards_is_enabled_unchecked (w : world) (d : gmap string pyval)
    (n v : pyval) :
  d !! "name" = Some n -> d !! "is_enabled" = Some v ->
  status (fst (serve (create_flag (PDict d)) w)) <> 400 /\
  (connects w = true ->
   sent_between w (snd (serve (create_flag (PDict d)) w)) (SqlInsert n v)) /\
  (isinstance_bool v = false ->
   forall u, serve (update_flag u (PDict d)) w = ((JError ErrIsEnabledRequired None, 400), w)).
Proof.
  intros Hn Hv. destruct (create_object_sends_insert w d n Hn) as [H4 Hs].
  rewrite Hv in Hs. repeat split; [done|done|].
  intros Hb u. unfold serve, update_flag. cbn [is_none py_in py_getitem]. run.
  rewrite Hv. cbn. by rewrite Hb.
Qed.

Lemma create_forwards_is_enabled_unchecked_witness :
  let d : gmap string pyval := {[ "name" := PStr "x"; "is_enabled" := PStr "true" ]} in
  let w := demo_world (Some []) in
  status (fst (serve (create_flag (PDict d)) w)) <> 400 /\
  (connects w = true ->
   sent_between w (snd (serve (create_flag (PDict d)) w))
     (SqlInsert (PStr "x") (PStr "true"))) /\
  (isinstance_bool (PStr "true") = false ->
   forall u, serve (update_flag u (PDict d)) w = ((JError ErrIsEnabledRequired None, 400), w)).
Proof.
  apply (create_forwards_is_enabled_unchecked (demo_world (Some []))
           {[ "name" := PStr "x"; "is_enabled" := PStr "true" ]} (PStr "x") (PStr "true"));
    vm_compute; reflexivity.
Defined.

(** * Further properties of the handlers *)

(** ** What [get_db_connection] does to the trace *)

Lemma get_db_connection_dialing m r m' :
  get_db_connection m = (r, m') ->
  exists evs, m' = Machine (extend evs (W m)) (conn m) (cur m) /\
              forallb dialing evs = true.
Proof.
  destruct m as [w c k].
  unfold get_db_connection, resolve_db_password, get_ssm_parameter, psycopg2_connect,
    read_config.
  run. cbn. intros H.
  repeat (case_match; cbn in *; simplify_eq);
    rewrite ?emit_extend; cbn; rewrite ?extend_extend;
    first [by eexists | by exists []; rewrite extend_nil].
Qed.

Lemma extend_inj evs evs' w : extend evs w = extend evs' w -> evs = evs'.
Proof. unfold extend. intros [= H]. by apply app_inv_head in H. Qed.

(** Without a connection only the dialing is traced. *)
Lemma get_db_connection_offline w :
  connects w = false ->
  exists evs e,
    get_db_connection (start w) = (Raise e, Machine (extend evs w) None None) /\
    forallb dialing evs = true.
Proof.
  intros Hc. destruct (get_db_connection_fails w Hc) as (evs & e & E).
  destruct (get_db_connection_dialing _ _ _ E) as (evs' & [= H] & Hd).
  apply app_inv_head in H as ->. by exists evs', e.
Qed.

Ltac dial_done H :=
  split;
  [ unfold extend; cbn; rewrite <- ?app_assoc; cbn;
    repeat match goal with Hb : boto3 _ = Some _ |- _ => rewrite <- Hb; clear Hb end;
    reflexivity
  | split; [reflexivity|exact H] ].

(** With a connection the trace gains lookups in the secret store, then one
    accepted [psycopg2.connect]. *)
Lemma get_db_connection_online w :
  connects w = true ->
  exists before p,
    get_db_connection (start w)
    = (Ok (Connection (flags (pg w)) false),
       Machine (extend (before ++ [EvConnect p]) w) None None) /\
    forallb is_ssm_call before = true /\ accepts (pg w) p = true.
Proof.
  intros Hc. destruct (get_db_connection_ok w Hc) as [evs E]. revert E.
  unfold start, get_db_connection, resolve_db_password, get_ssm_parameter, psycopg2_connect,
    read_config.
  run. cbn. intros E.
  repeat (case_match; unfold emit in *; cbn in *; simplify_eq; cbn in * ).
  all: match goal with
       | H : accepts _ ?p = true |- _ =>
           first [ exists [], p; dial_done H | eexists [_], p; dial_done H ]
       end.
Qed.

(** ** Requests that do not reach the store *)

Lemma create_flag_rejected w data :
  (forall d, data = PDict d -> d !! "name" = None) ->
  exists r, serve (create_flag data) w = (r, w) /\
            (r = (JError ErrNameRequired None, 400) \/ r = (JUnhandled TypeError, 500)).
Proof.
  intros H. unfold serve, create_flag.
  destruct data as [| b | k | bits | s | l | d]; cbn [truthy py_in py_getitem negb]; run.
  7: { rewrite (H d eq_refl). cbn. destruct (Nat.eqb (size d) 0); cbn; eauto. }
  all: cbn; repeat (case_match; cbn in *; simplify_eq); eauto.
Qed.

Lemma update_flag_rejected w n data :
  (forall d b, data = PDict d -> d !! "is_enabled" <> Some (PBool b)) ->
  exists r, serve (update_flag n data) w = (r, w) /\
            (r = (JError ErrIsEnabledRequired None, 400) \/ r = (JUnhandled TypeError, 500)).
Proof.
  intros H. unfold serve, update_flag.
  destruct data as [| b | k | bits | s | l | d]; cbn [is_none py_in py_getitem negb]; run.
  7: { destruct (d !! "is_enabled") as [v|] eqn:Ev; cbn; [|eauto].
       destruct v; cbn; eauto. by destruct (H d b eq_refl). }
  all: cbn; repeat (case_match; cbn in *; simplify_eq); eauto.
Qed.

(** ** No connection *)

Lemma serve_get_flags_offline w :
  connects w = false ->
  exists evs e, serve get_flags w = ((JError ErrList (Some e), 500), extend evs w) /\
                forallb dialing evs = true.
Proof.
  intros Hc. destruct (get_db_connection_offline w Hc) as (evs & e & E & Hd). exists evs, e.
  split; [|done]. unfold serve, get_flags, try_finally, try_except. run. cbn -[run].
  rewrite E. same_world.
Qed.

Lemma serve_get_flag_status_offline w n :
  connects w = false ->
  exists evs e, serve (get_flag_status n) w = ((JError ErrGet (Some e), 500), extend evs w) /\
                forallb dialing evs = true.
Proof.
  intros Hc. destruct (get_db_connection_offline w Hc) as (evs & e & E & Hd). exists evs, e.
  split; [|done]. unfold serve, get_flag_status, try_finally, try_except. run. cbn -[run].
  rewrite E. same_world.
Qed.

(** ** What a write commits *)

(** Either the handler only extends the trace, or it answers success and
    commits the table that its one statement produced. *)
Lemma create_flag_commits w data :
  (exists evs, snd (serve (create_flag data) w) = extend evs w) /\
  status (fst (serve (create_flag data) w)) <> 201
  \/
  exists d v t c rs evs,
    data = PDict d /\ d !! "name" = Some v /\
    status (fst (serve (create_flag data) w)) = 201 /\
    run (pg w) (SqlInsert v (default (PBool false) (d !! "is_enabled"))) (flags (pg w))
    = Ok (t, c, rs) /\
    snd (serve (create_flag data) w) = commit_flags t (extend evs w).
Proof.
  assert (Hrej : (forall d, data = PDict d -> d !! "name" = None) ->
                 (exists evs, snd (serve (create_flag data) w) = extend evs w) /\
                 status (fst (serve (create_flag data) w)) <> 201).
  { intros H. destruct (create_flag_rejected w data H) as (r & -> & [-> | ->]);
      (split; [exists []; by rewrite extend_nil|done]). }
  destruct data as [| b | k | bits | s | l | d]; try (left; apply Hrej; by intros ? [=]).
  destruct (d !! "name") as [v|] eqn:Hn; [|left; apply Hrej; by intros ? [= <-]].
  clear Hrej. destruct (connects w) eqn:Hc.
  - destruct (serve_create_flag w d v Hc Hn) as [evs ->].
    unfold create_answer.
    destruct (fault (pg w) (SqlInsert v _)) as [f|];
      [left; destruct (is_integrity_error (exn_of f)); split; eauto; done|].
    destruct (run (pg w) _ (flags (pg w))) as [[[t c] rs]|e] eqn:Er;
      [|left; destruct (is_integrity_error e); split; eauto; done].
    destruct (fault (pg w) SqlCommit) as [f|];
      [left; destruct (is_integrity_error (exn_of f)); split; eauto; done|].
    right. by eexists d, v, t, c, rs, _.
  - destruct (serve_create_flag_offline w d v Hc Hn) as (evs & e & ->).
    left. unfold create_answer. destruct (is_integrity_error e); split; eauto; done.
Qed.

Lemma update_flag_commits w n data :
  (exists evs, snd (serve (update_flag n data) w) = extend evs w) /\
  status (fst (serve (update_flag n data) w)) <> 200
  \/
  exists d b t c rs evs,
    data = PDict d /\ d !! "is_enabled" = Some (PBool b) /\
    status (fst (serve (update_flag n data) w)) = 200 /\
    run (pg w) (SqlUpdate (PBool b) n) (flags (pg w)) = Ok (t, c, rs) /\
    c <> 0 /\
    snd (serve (update_flag n data) w) = commit_flags t (extend evs w).
Proof.
  assert (Hrej : (forall d b, data = PDict d -> d !! "is_enabled" <> Some (PBool b)) ->
                 (exists evs, snd (serve (update_flag n data) w) = extend evs w) /\
                 status (fst (serve (update_flag n data) w)) <> 200).
  { intros H. destruct (update_flag_rejected w n data H) as (r & -> & [-> | ->]);
      (split; [exists []; by rewrite extend_nil|done]). }
  destruct data as [| b | k | bits | s | l | d]; try (left; apply Hrej; by intros ? ? [=]).
  destruct (d !! "is_enabled") as [[| b | | | | |]|] eqn:Hn;
    try (left; apply Hrej; intros ? ? [= <-]; congruence).
  clear Hrej. destruct (connects w) eqn:Hc.
  - destruct (serve_update_flag w n d b Hc Hn) as [evs ->].
    destruct (fault (pg w) (SqlUpdate _ n)) as [f|]; [left; split; eauto; done|].
    destruct (run (pg w) _ (flags (pg w))) as [[[t c] rs]|e] eqn:Er; [|left; split; eauto; done].
    destruct (Z.eqb c 0) eqn:Ec; [left; split; eauto; done|].
    destruct (fault (pg w) SqlCommit) as [f|]; [left; split; eauto; done|].
    right. eexists d, b, t, c, rs, _. repeat split; try done. by apply Z.eqb_neq.
  - destruct (serve_update_flag_offline w n d b Hc Hn) as (evs & e & ->).
    left; split; eauto; done.
Qed.

(** ** The statements and the rows *)

Lemma has_name_eq n r : has_name n r = true <-> name r = n.
Proof. unfold has_name. apply String.eqb_eq. Qed.

(** An INSERT that succeeds appends one row, whose name was not stored. *)
Lemma run_insert_appends sv v e rows t c rs :
  run sv (SqlInsert v e) (Some rows) = Ok (t, c, rs) ->
  exists n b, t = Some (rows ++ [Row n b]) /\ existsb (has_name n) rows = false.
Proof.
  cbn. destruct (bind_name sv v) as [[n|]|] eqn:En; try done;
    destruct (bind_is_enabled sv e) as [[b|]|]; try done.
  destruct (existsb (has_name n) rows) eqn:Ex; [done|]. intros [= <- _ _].
  by exists n, b.
Qed.

Lemma run_needs_table sv s c rs t :
  run sv s None = Ok (t, c, rs) -> s = SqlCreateTable \/ s = SqlCommit.
Proof. destruct s; cbn; intros; auto; done. Qed.

(** An UPDATE with a boolean rewrites [is_enabled] of the rows of that name. *)
Lemma run_update_maps sv b n rows t c rs :
  run sv (SqlUpdate (PBool b) n) (Some rows) = Ok (t, c, rs) ->
  t = Some (map (set_is_enabled n b) rows) /\
  c = Z.of_nat (List.length (List.filter (has_name n) rows)).
Proof. cbn -[List.filter]. by intros [= <- <- _]. Qed.

Lemma name_set_is_enabled n b r : name (set_is_enabled n b r) = name r.
Proof. unfold set_is_enabled. by destruct (has_name n r). Qed.

Lemma head_filter_updated n b rows :
  existsb (has_name n) rows = true ->
  head (List.filter (has_name n) (map (set_is_enabled n b) rows)) = Some (Row n b).
Proof.
  induction rows as [|r rows IH]; [done|]. cbn -[has_name set_is_enabled].
  destruct (has_name n r) eqn:Hr.
  - intros _.
    assert (set_is_enabled n b r = Row n b) as ->.
    { unfold set_is_enabled. rewrite Hr. apply has_name_eq in Hr. by rewrite Hr. }
    by rewrite has_name_refl.
  - assert (set_is_enabled n b r = r) as -> by (unfold set_is_enabled; by rewrite Hr).
    rewrite Hr. exact IH.
Qed.

Lemma filter_present n rows :
  existsb (has_name n) rows = true ->
  Z.eqb (Z.of_nat (List.length (List.filter (has_name n) rows))) 0 = false.
Proof.
  intros H. apply Z.eqb_neq. apply existsb_exists in H as (r & Hin & Hr).
  assert (In r (List.filter (has_name n) rows)) as Hf by (apply filter_In; auto).
  destruct (List.filter (has_name n) rows); [done|]. cbn. lia.
Qed.

(** ** Reads *)

Lemma get_flags_keeps_server w : pg (snd (serve get_flags w)) = pg w.
Proof.
  destruct (connects w) eqn:Hc.
  - destruct (serve_get_flags w Hc) as [evs ->]. by repeat case_match.
  - by destruct (serve_get_flags_offline w Hc) as (evs & e & -> & _).
Qed.

Lemma get_flag_status_keeps_server w n : pg (snd (serve (get_flag_status n) w)) = pg w.
Proof.
  destruct (connects w) eqn:Hc.
  - destruct (serve_get_flag_status w n Hc) as [evs ->]. by repeat case_match.
  - by destruct (serve_get_flag_status_offline w n Hc) as (evs & e & -> & _).
Qed.

(** ** Get *)

(** X1: in a store that runs the SELECT, a get of a name that is not stored
    answers 404 with the not-found text; a get of a stored name answers 200
    with a stored row of that name.  The server is left as it was. *)
Theorem get_flag_status_found_or_404 (w : world) (rows : list row) (n : string) :
  connects w = true -> fault (pg w) (SqlSelectOne n) = None -> flags (pg w) = Some rows ->
  (existsb (has_name n) rows = false ->
   fst (serve (get_flag_status n) w) = (JError ErrNotFound None, 404)) /\
  (existsb (has_name n) rows = true ->
   exists b, fst (serve (get_flag_status n) w) = (JFlag (Row n b), 200) /\
             In (Row n b) rows) /\
  pg (snd (serve (get_flag_status n) w)) = pg w.
Proof.
  intros Hc Hf Ht. split; [|split; [|apply get_flag_status_keeps_server]].
  - intros Hn. destruct (serve_get_flag_status w n Hc) as [evs ->].
    rewrite Hf, Ht. cbn -[List.filter]. by rewrite (filter_absent n rows Hn).
  - intros Hn. destruct (serve_get_flag_status w n Hc) as [evs ->].
    rewrite Hf, Ht. cbn -[List.filter].
    destruct (List.filter (has_name n) rows) as [|[n' b] found] eqn:Ef.
    { apply existsb_exists in Hn as (r & Hin & Hr).
      assert (In r (List.filter (has_name n) rows)) as X by (apply filter_In; auto).
      by rewrite Ef in X. }
    assert (In (Row n' b) (List.filter (has_name n) rows)) as X by (rewrite Ef; by left).
    apply filter_In in X as [Hin Hr]. apply has_name_eq in Hr. cbn in Hr. subst n'.
    by exists b.
Qed.

Lemma get_flag_status_found_or_404_witness :
  fst (serve (get_flag_status "zz") (demo_world (Some [Row "a" true])))
  = (JError ErrNotFound None, 404).
Proof.
  apply (proj1 (get_flag_status_found_or_404 (demo_world (Some [Row "a" true]))
                  [Row "a" true] "zz" ltac:(vm_compute; reflexivity)
                  ltac:(reflexivity) ltac:(reflexivity))).
  reflexivity.
Defined.

(** ** Update *)

(** X2: in a store that runs the UPDATE, the COMMIT and the SELECT, updating
    a stored name answers 200 and a get of that name then answers 200 with
    the new value. *)
Theorem update_then_get (w : world) (rows : list row) (d : gmap string pyval)
    (n : string) (b : bool) :
  connects w = true ->
  fault (pg w) (SqlUpdate (PBool b) n) = None ->
  fault (pg w) SqlCommit = None ->
  fault (pg w) (SqlSelectOne n) = None ->
  flags (pg w) = Some rows ->
  existsb (has_name n) rows = true ->
  d !! "is_enabled" = Some (PBool b) ->
  let updated := serve (update_flag n (PDict d)) w in
  fst updated = (JMessage (MsgUpdated n), 200) /\
  fst (serve (get_flag_status n) (snd updated)) = (JFlag (Row n b), 200).
Proof.
  intros Hc Hfu Hfc Hfs Ht Hn He. cbn zeta.
  destruct (serve_update_flag w n d b Hc He) as [evs ->].
  rewrite Hfu, Hfc, Ht. cbn -[List.filter]. rewrite (filter_present n rows Hn).
  split; [done|]. cbn [snd].
  match goal with |- context [serve _ ?w1] => set (w1' := w1) end.
  assert (connects w1' = true) as Hc1 by (unfold w1'; by rewrite connects_commit_extend).
  destruct (serve_get_flag_status w1' n Hc1) as [evs' ->].
  subst w1'. cbn [pg commit_flags set_pg set_flags fault flags extend].
  rewrite Hfs. cbn -[List.filter]. by rewrite (head_filter_updated n b rows Hn).
Qed.

Lemma update_then_get_witness :
  let w := demo_world (Some [Row "a" true; Row "b" false]) in
  let d : gmap string pyval := {[ "is_enabled" := PBool true ]} in
  fst (serve (update_flag "b" (PDict d)) w) = (JMessage (MsgUpdated "b"), 200) /\
  fst (serve (get_flag_status "b") (snd (serve (update_flag "b" (PDict d)) w)))
  = (JFlag (Row "b" true), 200).
Proof.
  apply (update_then_get (demo_world (Some [Row "a" true; Row "b" false]))
           [Row "a" true; Row "b" false] {[ "is_enabled" := PBool true ]} "b" true).
  - vm_compute; reflexivity.
  - reflexivity.
  - reflexivity.
  - reflexivity.
  - reflexivity.
  - reflexivity.
  - vm_compute; reflexivity.
Defined.

(** X3: whatever the body and the state of the world, an update keeps the
    rows in place with their names, and changes no row of another name. *)
Theorem update_touches_only_named_flag (w : world) (rows : list row) (n : string)
    (data : pyval) :
  flags (pg w) = Some rows ->
  exists rows',
    flags (pg (snd (serve (update_flag n data) w))) = Some rows' /\
    Forall2 (fun r r' => name r' = name r /\ (name r <> n -> r' = r)) rows rows'.
Proof.
  intros Ht.
  destruct (update_flag_commits w n data)
    as [[[evs ->] _] | (d & b & t & c & rs & evs & _ & _ & _ & Hr & _ & ->)].
  - exists rows. split; [done|]. apply Forall2_same_length_lookup_2; [done|].
    intros i r r' H1 H2. by simplify_eq.
  - rewrite Ht in Hr. apply run_update_maps in Hr as [-> _].
    exists (map (set_is_enabled n b) rows). split; [done|].
    apply Forall2_fmap_r, Forall_Forall2_diag, Forall_forall. intros r _. split.
    + apply name_set_is_enabled.
    + intros Hne. unfold set_is_enabled.
      destruct (has_name n r) eqn:E; [|done]. by apply has_name_eq in E.
Qed.

Lemma update_touches_only_named_flag_witness :
  exists rows',
    flags (pg (snd (serve (update_flag "b" (PDict {[ "is_enabled" := PBool true ]}))
                          (demo_world (Some [Row "a" true; Row "b" false])))))
    = Some rows' /\
    Forall2 (fun r r' => name r' = name r /\ (name r <> "b" -> r' = r))
            [Row "a" true; Row "b" false] rows'.
Proof.
  apply (update_touches_only_named_flag (demo_world (Some [Row "a" true; Row "b" false]))
           [Row "a" true; Row "b" false] "b" (PDict {[ "is_enabled" := PBool true ]})).
  reflexivity.
Defined.

(** ** Create *)

(** X4: whatever the body and the state of the world, create leaves the
    stored rows as they are; when it answers 201 it has appended exactly one
    row, whose name was not stored. *)
Theorem create_only_appends (w : world) (rows : list row) (data : pyval) :
  flags (pg w) = Some rows ->
  (status (fst (serve (create_flag data) w)) <> 201 /\
   flags (pg (snd (serve (create_flag data) w))) = Some rows) \/
  (exists n b,
     status (fst (serve (create_flag data) w)) = 201 /\
     existsb (has_name n) rows = false /\
     flags (pg (snd (serve (create_flag data) w))) = Some (rows ++ [Row n b])).
Proof.
  intros Ht.
  destruct (create_flag_commits w data)
    as [[[evs ->] Hs] | (d & v & t & c & rs & evs & _ & _ & Hs & Hr & ->)].
  - by left.
  - right. rewrite Ht in Hr. apply run_insert_appends in Hr as (n & b & -> & Hn).
    by exists n, b.
Qed.

Lemma create_only_appends_witness :
  let w := demo_world (Some [Row "a" true]) in
  let data := PDict {[ "name" := PStr "b" ]} in
  (status (fst (serve (create_flag data) w)) <> 201 /\
   flags (pg (snd (serve (create_flag data) w))) = Some [Row "a" true]) \/
  (exists n b,
     status (fst (serve (create_flag data) w)) = 201 /\
     existsb (has_name n) [Row "a" true] = false /\
     flags (pg (snd (serve (create_flag data) w))) = Some ([Row "a" true] ++ [Row n b])).
Proof.
  apply (create_only_appends (demo_world (Some [Row "a" true])) [Row "a" true]
           (PDict {[ "name" := PStr "b" ]})).
  reflexivity.
Defined.

(** ** Writes that fail, and reads *)

(** X5: a create that does not answer 201 and an update that does not answer
    200 leave the server as it was, whatever the body and the failure. *)
Theorem failed_write_changes_nothing (w : world) :
  (forall data, status (fst (serve (create_flag data) w)) <> 201 ->
                pg (snd (serve (create_flag data) w)) = pg w) /\
  (forall n data, status (fst (serve (update_flag n data) w)) <> 200 ->
                  pg (snd (serve (update_flag n data) w)) = pg w).
Proof.
  split.
  - intros data Hs.
    destruct (create_flag_commits w data)
      as [[[evs ->] _] | (d & v & t & c & rs & evs & _ & _ & Hs' & _)]; [done|congruence].
  - intros n data Hs.
    destruct (update_flag_commits w n data)
      as [[[evs ->] _] | (d & b & t & c & rs & evs & _ & _ & Hs' & _)]; [done|congruence].
Qed.

(** X6: the list and get handlers never change the server, in any world,
    and the health check changes nothing at all and always answers 200. *)
Theorem reads_never_write (w : world) :
  pg (snd (serve get_flags w)) = pg w /\
  (forall n, pg (snd (serve (get_flag_status n) w)) = pg w) /\
  serve health_check w = ((JStatusOk, 200), w).
Proof.
  split; [apply get_flags_keeps_server|]. split; [|done].
  intros n. apply get_flag_status_keeps_server.
Qed.

(** ** Create: the validation of the body *)

(** X8: create answers 400 exactly when the body is falsy (absent, empty
    object, empty array, empty string, zero, false) or is a container without
    "name"; the world is then left as it was, with no call to the store. *)
Theorem create_bad_request_iff (w : world) (data : pyval) :
  (status (fst (serve (create_flag data) w)) = 400 <->
   truthy data = false \/ py_in "name" data = Ok false) /\
  (status (fst (serve (create_flag data) w)) = 400 -> snd (serve (create_flag data) w) = w).
Proof.
  destruct data as [| b | k | bits | s | l | d].
  7: { destruct (d !! "name") as [v|] eqn:Hn.
       - destruct (create_object_sends_insert w d v Hn) as [H4 _].
         split; [|done]. split; [done|]. cbn. rewrite Hn, (size_lookup_ne_0 _ _ _ Hn). cbn.
         intros [?|?]; done.
       - destruct (create_flag_rejected w (PDict d)) as (r & E & Hr);
           [by intros ? [= <-]|].
         rewrite E. cbn [fst snd]. split; [|done].
         assert (r = (JError ErrNameRequired None, 400)) as ->.
         { destruct Hr as [->| ->]; [done|]. revert E. unfold serve, create_flag.
           cbn [truthy py_in]. run. rewrite Hn. cbn.
           destruct (Nat.eqb (size d) 0); cbn; by intros [=]. }
         split; [|done]. intros _. right. cbn. by rewrite Hn. }
  all: unfold serve, create_flag; cbn [truthy py_in py_getitem]; run.
  - cbn. split; [split; auto|done].
  - destruct b; cbn; (split; [split; [try done; auto|intros [?|?]; done]|done]).
  - destruct (Z.eqb k 0); cbn; (split; [split; [try done; auto|intros [?|?]; done]|done]).
  - destruct (Z.eqb (bits mod 2 ^ 63) 0); cbn;
      (split; [split; [try done; auto|intros [?|?]; done]|done]).
  - destruct s as [|c s]; [cbn; split; [split; auto|done]|].
    cbn [String.eqb negb]. destruct (str_contains "name" (String c s)) eqn:E; cbn [negb].
    + cbn. split; [split; [done|intros [?|?]; done]|done].
    + cbn. split; [split; auto|done].
  - destruct l as [|x l]; [cbn; split; [split; auto|done]|].
    cbn [negb]. destruct (existsb (is_str "name") (x :: l)) eqn:E; cbn [negb].
    + cbn. split; [split; [done|intros [?|?]; done]|done].
    + cbn. split; [split; auto|done].
Qed.

(** X9: a truthy body that is a number or a boolean, or a string or an array
    that contains "name", is not answered by the handler: [TypeError] leaves
    the view, the answer is 500 and the world is left as it was. *)
Theorem create_non_object_body_unhandled (w : world) (data : pyval) :
  escapes_create_validation data = true ->
  serve (create_flag data) w = ((JUnhandled TypeError, 500), w).
Proof.
  intros H. unfold serve, create_flag.
  destruct data as [| b | k | bits | s | l | d]; try discriminate H;
    cbn [escapes_create_validation truthy] in H.
  - by rewrite H.
  - cbn [truthy]. by rewrite H.
  - cbn [truthy]. by rewrite H.
  - cbn [truthy py_in py_getitem]. run.
    destruct s as [|c s]; [done|]. cbn [String.eqb negb]. by rewrite H.
  - cbn [truthy py_in py_getitem]. run.
    destruct l as [|x l]; [done|]. cbn [negb]. by rewrite H.
Qed.

Lemma create_non_object_body_unhandled_witness :
  serve (create_flag (PList [PStr "name"])) (demo_world (Some []))
  = ((JUnhandled TypeError, 500), demo_world (Some [])).
Proof.
  apply (create_non_object_body_unhandled (demo_world (Some [])) (PList [PStr "name"])).
  reflexivity.
Defined.

(** ** Without a connection *)

Lemma get_db_connection_raises m e m' :
  get_db_connection m = (Raise e, m') -> raised_by_dialing e = true.
Proof.
  destruct m as [w c k].
  unfold get_db_connection, resolve_db_password, get_ssm_parameter, psycopg2_connect,
    read_config.
  run. cbn. intros H.
  by repeat (case_match; cbn in *; simplify_eq).
Qed.

Lemma raised_by_dialing_not_integrity e :
  raised_by_dialing e = true -> is_integrity_error e = false.
Proof. by destruct e. Qed.

Lemma dialing_offline w :
  connects w = false ->
  exists evs e,
    get_db_connection (start w) = (Raise e, Machine (extend evs w) None None) /\
    forallb dialing evs = true /\ raised_by_dialing e = true.
Proof.
  intros Hc. destruct (get_db_connection_offline w Hc) as (evs & e & E & Hd).
  exists evs, e. repeat split; [done..|]. by eapply get_db_connection_raises.
Qed.

(** X10: when no connection is obtained (no password, a failing secret
    store, a refused connection), each of the four handlers answers 500 with
    its own text and the exception; no statement is sent and the server is
    left as it was. *)
Theorem unreachable_store_answers_500 (w : world) :
  connects w = false ->
  answered_offline ErrList w (serve get_flags w) /\
  (forall n, answered_offline ErrGet w (serve (get_flag_status n) w)) /\
  (forall d v, d !! "name" = Some v ->
               answered_offline ErrCreate w (serve (create_flag (PDict d)) w)) /\
  (forall n d b, d !! "is_enabled" = Some (PBool b) ->
                 answered_offline ErrUpdate w (serve (update_flag n (PDict d)) w)).
Proof.
  intros Hc. destruct (dialing_offline w Hc) as (evs & e & E & Hd & He).
  unfold answered_offline. repeat split.
  - exists evs, e. split; [|done].
    unfold serve, get_flags, try_finally, try_except. run. cbn -[run]. rewrite E. same_world.
  - intros n. exists evs, e. split; [|done].
    unfold serve, get_flag_status, try_finally, try_except. run. cbn -[run].
    rewrite E. same_world.
  - intros d v Hn. exists evs, e. split; [|done].
    unfold serve, create_flag, try_finally, try_except. cbn [truthy py_in py_getitem py_get].
    rewrite (size_lookup_ne_0 _ _ _ Hn). run. cbn [negb].
    rewrite Hn. cbn -[run]. rewrite E. cbn -[run].
    rewrite (raised_by_dialing_not_integrity e He). same_world.
  - intros n d b Hn. exists evs, e. split; [|done].
    unfold serve, update_flag, try_finally, try_except. cbn [is_none py_in py_getitem].
    run. rewrite Hn. cbn -[run]. rewrite E. same_world.
Qed.

Lemma unreachable_store_answers_500_witness :
  answered_offline ErrList demo_refusing_world (serve get_flags demo_refusing_world).
Proof.
  apply (proj1 (unreachable_store_answers_500 demo_refusing_world
                  ltac:(vm_compute; reflexivity))).
Defined.

(** X11: when the password is only in the secret store and boto3 is not
    installed, [get_ssm_parameter] raises its [RuntimeError] before any call:
    [get_db_connection] raises it, a handler answers 500 with it, and
    [init_db] prints it as an unexpected error; nothing else is traced. *)
Theorem missing_boto3 (w : world) (q : string) :
  opt_truthy (environ w !! "DB_PASSWORD") = false ->
  environ w !! "DB_PASSWORD_SSM_PARAM" = Some q -> q <> EmptyString ->
  boto3 w = None ->
  get_db_connection (start w) = (Raise (RuntimeError Boto3Missing), start w) /\
  serve get_flags w = ((JError ErrList (Some (RuntimeError Boto3Missing)), 500), w) /\
  call init_db w
  = (Ok tt, extend [EvPrint PrintTrying;
                    EvPrint (PrintUnexpected (RuntimeError Boto3Missing))] w).
Proof.
  intros Hp Hq Hne Hb.
  assert (forall c k t, get_db_connection (Machine (extend t w) c k)
                        = (Raise (RuntimeError Boto3Missing), Machine (extend t w) c k)) as E.
  { intros c k t. unfold get_db_connection, resolve_db_password, get_ssm_parameter. run. cbn.
    rewrite Hp. cbn. rewrite Hq, (proj2 (String.eqb_neq q EmptyString) Hne). cbn.
    by rewrite Hb. }
  pose proof (E None None []) as E0. rewrite extend_nil in E0.
  change (Machine w None None) with (start w) in E0. split; [exact E0|]. split.
  - unfold serve, get_flags, try_finally, try_except. run. cbn -[run].
    rewrite E0. by destruct w.
  - unfold call, init_db, try_except. run. cbn -[run].
    change (Machine (emit (EvPrint PrintTrying) w) None None)
      with (Machine (extend [EvPrint PrintTrying] w) None None).
    rewrite E. same_world.
Qed.

Lemma missing_boto3_witness :
  serve get_flags demo_no_boto3_world
  = ((JError ErrList (Some (RuntimeError Boto3Missing)), 500), demo_no_boto3_world).
Proof.
  apply (missing_boto3 demo_no_boto3_world "/prod/db/password");
    [vm_compute; reflexivity | vm_compute; reflexivity | discriminate | reflexivity].
Defined.

(** ** Bootstrap *)

(** X12: in a world whose store runs CREATE TABLE, COMMIT and the SELECT and
    whose table does not exist yet, list answers 500 with the server's error;
    after [init_db] the table exists, empty, and list answers 200 with the
    empty sequence. *)
Theorem bootstrap_then_list (w : world) :
  connects w = true ->
  fault (pg w) SqlCreateTable = None ->
  fault (pg w) SqlCommit = None ->
  fault (pg w) SqlSelectAll = None ->
  flags (pg w) = None ->
  fst (serve get_flags w) = (JError ErrList (Some ProgrammingError), 500) /\
  flags (pg (snd (call init_db w))) = Some [] /\
  fst (serve get_flags (snd (call init_db w))) = (JFlags [], 200).
Proof.
  intros Hc Hft Hfc Hf Ht. split; [|split].
  - destruct (serve_get_flags w Hc) as [evs ->]. by rewrite Hf, Ht.
  - destruct (call_init_db w) as (evs & e & ->). rewrite Hc, Hft, Hfc, Ht. reflexivity.
  - destruct (call_init_db w) as (evs & e & ->). rewrite Hc, Hft, Hfc, Ht. cbn [snd].
    match goal with |- context [serve _ ?w1] => set (w1' := w1) end.
    assert (connects w1' = true) as Hc1 by (unfold w1'; by rewrite connects_commit_extend).
    destruct (serve_get_flags w1' Hc1) as [evs' ->].
    subst w1'. cbn [pg commit_flags set_pg set_flags fault flags extend created_table].
    by rewrite Hf.
Qed.

Lemma bootstrap_then_list_witness :
  fst (serve get_flags (demo_world None)) = (JError ErrList (Some ProgrammingError), 500) /\
  flags (pg (snd (call init_db (demo_world None)))) = Some [] /\
  fst (serve get_flags (snd (call init_db (demo_world None)))) = (JFlags [], 200).
Proof.
  apply (bootstrap_then_list (demo_world None));
    [vm_compute; reflexivity | reflexivity | reflexivity | reflexivity | reflexivity].
Defined.

(** X13: [init_db] tells a refused connection from any other failure: with a
    configured password and a server that refuses the connection it prints
    the connection-error line; with no password at all it prints the
    unexpected-error line, without calling [psycopg2.connect]. *)
Theorem init_db_reports (w : world) :
  (forall p, environ w !! "DB_PASSWORD" = Some p -> p <> EmptyString ->
             accepts (pg w) (params_with w p) = false ->
             call init_db w
             = (Ok tt, extend [EvPrint PrintTrying; EvConnect (params_with w p);
                               EvPrint (PrintConnectionError OperationalError)] w)) /\
  (opt_truthy (environ w !! "DB_PASSWORD") = false ->
   opt_truthy (environ w !! "DB_PASSWORD_SSM_PARAM") = false ->
   call init_db w
   = (Ok tt, extend [EvPrint PrintTrying;
                     EvPrint (PrintUnexpected (RuntimeError PasswordUnresolved))] w)).
Proof.
  split.
  - intros p Hp Hne Ha.
    unfold call, init_db, try_except, get_db_connection, resolve_db_password,
      psycopg2_connect, read_config, params_with in *.
    pose proof (proj2 (String.eqb_neq p EmptyString) Hne) as Heq.
    run. cbn -[run]. rewrite Hp. cbn -[run]. rewrite !Heq. cbn -[run].
    rewrite ?Heq. cbn -[run]. rewrite Ha. same_world.
  - intros Hp Hq.
    unfold call, init_db, try_except, get_db_connection. run. cbn -[run].
    change (Machine (emit (EvPrint PrintTrying) w) None None)
      with (Machine (extend [EvPrint PrintTrying] w) None None).
    rewrite resolve_db_password_absent by done. same_world.
Qed.

Lemma init_db_reports_witness :
  call init_db demo_refusing_world
  = (Ok tt, extend [EvPrint PrintTrying; EvConnect (params_with demo_refusing_world "secret");
                    EvPrint (PrintConnectionError OperationalError)] demo_refusing_world) /\
  call init_db demo_bare_world
  = (Ok tt, extend [EvPrint PrintTrying;
                    EvPrint (PrintUnexpected (RuntimeError PasswordUnresolved))]
              demo_bare_world).
Proof.
  split.
  - apply (proj1 (init_db_reports demo_refusing_world) "secret");
      [vm_compute; reflexivity | discriminate | reflexivity].
  - apply (proj2 (init_db_reports demo_bare_world)); vm_compute; reflexivity.
Defined.

(** ** Update, twice *)

Lemma has_name_set_is_enabled n b r : has_name n (set_is_enabled n b r) = has_name n r.
Proof. unfold has_name. by rewrite name_set_is_enabled. Qed.

Lemma set_is_enabled_idem n b r :
  set_is_enabled n b (set_is_enabled n b r) = set_is_enabled n b r.
Proof.
  unfold set_is_enabled at 1. rewrite has_name_set_is_enabled.
  unfold set_is_enabled. destruct (has_name n r) eqn:E; [done|]. by destruct r.
Qed.

Lemma existsb_set_is_enabled n b rows :
  existsb (has_name n) (map (set_is_enabled n b) rows) = existsb (has_name n) rows.
Proof.
  induction rows as [|r rows IH]; [done|]. cbn -[has_name set_is_enabled].
  by rewrite has_name_set_is_enabled, IH.
Qed.

Lemma run_update_bool sv b n rows :
  run sv (SqlUpdate (PBool b) n) (Some rows)
  = Ok (Some (map (set_is_enabled n b) rows),
        Z.of_nat (List.length (List.filter (has_name n) rows)), []).
Proof. reflexivity. Qed.

(** X17: in a store that runs the UPDATE and the COMMIT, repeating an update
    of a stored name answers 200 again and leaves the server as the first
    update left it. *)
Theorem update_twice (w : world) (rows : list row) (d : gmap string pyval)
    (n : string) (b : bool) :
  connects w = true ->
  fault (pg w) (SqlUpdate (PBool b) n) = None ->
  fault (pg w) SqlCommit = None ->
  flags (pg w) = Some rows ->
  existsb (has_name n) rows = true ->
  d !! "is_enabled" = Some (PBool b) ->
  let once := serve (update_flag n (PDict d)) w in
  let twice := serve (update_flag n (PDict d)) (snd once) in
  fst once = (JMessage (MsgUpdated n), 200) /\
  fst twice = (JMessage (MsgUpdated n), 200) /\
  pg (snd twice) = pg (snd once).
Proof.
  intros Hc Hfu Hfc Ht Hn He. cbn zeta.
  destruct (serve_update_flag w n d b Hc He) as [evs ->].
  rewrite Hfu, Hfc, Ht, run_update_bool, (filter_present n rows Hn). split; [done|].
  cbn [snd].
  match goal with |- context [serve _ ?w1] => set (w1' := w1) end.
  assert (connects w1' = true) as Hc1 by (unfold w1'; by rewrite connects_commit_extend).
  destruct (serve_update_flag w1' n d b Hc1 He) as [evs' ->].
  subst w1'. cbn [pg commit_flags set_pg set_flags fault flags extend].
  rewrite Hfu, Hfc, run_update_bool.
  rewrite filter_present by (by rewrite existsb_set_is_enabled).
  split; [done|]. cbn. rewrite map_map.
  do 2 f_equal. apply map_ext. intros r. apply set_is_enabled_idem.
Qed.

Lemma update_twice_witness :
  let w := demo_world (Some [Row "a" true; Row "b" false]) in
  let d : gmap string pyval := {[ "is_enabled" := PBool true ]} in
  let once := serve (update_flag "b" (PDict d)) w in
  let twice := serve (update_flag "b" (PDict d)) (snd once) in
  fst once = (JMessage (MsgUpdated "b"), 200) /\
  fst twice = (JMessage (MsgUpdated "b"), 200) /\
  pg (snd twice) = pg (snd once).
Proof.
  apply (update_twice (demo_world (Some [Row "a" true; Row "b" false]))
           [Row "a" true; Row "b" false] {[ "is_enabled" := PBool true ]} "b" true).
  - vm_compute; reflexivity.
  - reflexivity.
  - reflexivity.
  - reflexivity.
  - reflexivity.
  - vm_compute; reflexivity.
Defined.

(** ** Create, then list *)

(** X18: in a store that runs the INSERT, the COMMIT and the SELECT, after
    the create of a name of at most 100 characters that was not stored, list
    answers 200 with the rows stored before and the new flag, one row more,
    ordered by name. *)
Theorem create_then_list (w : world) (rows : list row) (d : gmap string pyval)
    (n : string) (o : option bool) :
  connects w = true ->
  fault (pg w) (SqlInsert (PStr n) (PBool (default false o))) = None ->
  fault (pg w) SqlCommit = None ->
  fault (pg w) SqlSelectAll = None ->
  flags (pg w) = Some rows ->
  (char_length n <= 100)%nat ->
  existsb (has_name n) rows = false ->
  d !! "name" = Some (PStr n) -> d !! "is_enabled" = PBool <$> o ->
  exists l,
    fst (serve get_flags (snd (serve (create_flag (PDict d)) w))) = (JFlags l, 200) /\
    l ≡ₚ Row n (default false o) :: rows /\
    StronglySorted row_le l.
Proof.
  intros Hc Hfi Hfc Hfs Ht Hlen Hfresh Hn He.
  destruct (serve_create_flag w d _ Hc Hn) as [evs ->].
  rewrite He.
  assert (default (PBool false) (PBool <$> o) = PBool (default false o)) as -> by by destruct o.
  rewrite Hfi, Hfc, Ht, (run_insert _ _ _ _ Hlen), Hfresh. cbn [snd].
  match goal with |- context [serve _ ?w1] => set (w1' := w1) end.
  assert (connects w1' = true) as Hc1 by (unfold w1'; by rewrite connects_commit_extend).
  destruct (serve_get_flags w1' Hc1) as [evs' ->].
  subst w1'. cbn [pg commit_flags set_pg set_flags fault flags extend].
  rewrite Hfs, run_select_all. eexists. split; [done|]. unfold order_by_name. split.
  - rewrite merge_sort_Permutation. by rewrite Permutation_app_comm.
  - apply (StronglySorted_merge_sort _).
Qed.

Lemma create_then_list_witness :
  exists l,
    fst (serve get_flags (snd (serve (create_flag (PDict {[ "name" := PStr "a" ]}))
                                     (demo_world (Some [Row "b" true])))))
    = (JFlags l, 200) /\
    l ≡ₚ Row "a" (default false None) :: [Row "b" true] /\
    StronglySorted row_le l.
Proof.
  apply (create_then_list (demo_world (Some [Row "b" true])) [Row "b" true]
           {[ "name" := PStr "a" ]} "a" None).
  - vm_compute; reflexivity.
  - reflexivity.
  - reflexivity.
  - reflexivity.
  - reflexivity.
  - vm_compute; lia.
  - reflexivity.
  - vm_compute; reflexivity.
  - vm_compute; reflexivity.
Defined.

(** ** The connection is closed on every path *)

Ltac closed_with before p sends :=
  exists before, p, sends; split; [|done];
  unfold connection_lost; cbn [existsb map];
  repeat match goal with H : fault _ _ = _ |- _ => rewrite H; clear H end;
  same_world.

(** X15: once a handler has obtained its connection, whatever the statement
    does (driver fault, error of the server, zero rows, failing commit or
    success), the trace of the request is: lookups in the secret store, one
    connect, the statements sent, then the cursor and the connection closed;
    except that after a statement or a commit that broke the connection the
    handler closes nothing, both handles being closed already. *)
Theorem handlers_close_connection (w : world) :
  connects w = true ->
  closes_connection w (snd (serve get_flags w)) /\
  (forall n, closes_connection w (snd (serve (get_flag_status n) w))) /\
  (forall d v, d !! "name" = Some v ->
               closes_connection w (snd (serve (create_flag (PDict d)) w))) /\
  (forall n d b, d !! "is_enabled" = Some (PBool b) ->
                 closes_connection w (snd (serve (update_flag n (PDict d)) w))).
Proof.
  intros Hc. destruct (get_db_connection_online w Hc) as (before & p & E & Hb & Ha).
  unfold closes_connection. repeat split.
  - unfold serve, get_flags, try_finally, try_except. run. cbn -[run].
    rewrite E. cbn -[run].
    destruct (fault (pg w) SqlSelectAll) as [f|] eqn:Ef; cbn -[run];
      [destruct f; closed_with before p [SqlSelectAll]|].
    destruct (run (pg w) _ (flags (pg w))) as [[[t c] rs]|e]; cbn -[run];
      closed_with before p [SqlSelectAll].
  - intros n. unfold serve, get_flag_status, try_finally, try_except. run. cbn -[run].
    rewrite E. cbn -[run].
    destruct (fault (pg w) (SqlSelectOne n)) as [f|] eqn:Ef; cbn -[run];
      [destruct f; closed_with before p [SqlSelectOne n]|].
    destruct (run (pg w) _ (flags (pg w))) as [[[t c] rs]|e]; cbn -[run];
      [destruct (head rs)|]; closed_with before p [SqlSelectOne n].
  - intros d v Hn.
    unfold serve, create_flag, try_finally, try_except. cbn [truthy py_in py_getitem py_get].
    rewrite (size_lookup_ne_0 _ _ _ Hn). run. cbn [negb].
    rewrite Hn. cbn -[run]. rewrite E. cbn -[run].
    set (s := SqlInsert v _).
    destruct (fault (pg w) s) as [f|] eqn:Ef; cbn -[run].
    { destruct f; cbn -[run]; closed_with before p [s]. }
    destruct (run (pg w) s (flags (pg w))) as [[[t c] rs]|e]; cbn -[run].
    2: { destruct (is_integrity_error e); closed_with before p [s]. }
    destruct (fault (pg w) SqlCommit) as [f|] eqn:Efc; cbn -[run].
    { destruct f; cbn -[run]; closed_with before p [s; SqlCommit]. }
    closed_with before p [s; SqlCommit].
  - intros n d b Hn.
    unfold serve, update_flag, try_finally, try_except. cbn [is_none py_in py_getitem].
    run. rewrite Hn. cbn -[run]. rewrite E. cbn -[run].
    set (s := SqlUpdate _ n).
    destruct (fault (pg w) s) as [f|] eqn:Ef; cbn -[run];
      [destruct f; closed_with before p [s]|].
    destruct (run (pg w) s (flags (pg w))) as [[[t c] rs]|e]; cbn -[run];
      [|closed_with before p [s]].
    destruct (Z.eqb c 0); cbn -[run]; [closed_with before p [s]|].
    destruct (fault (pg w) SqlCommit) as [f|] eqn:Efc; cbn -[run];
      [destruct f|]; closed_with before p [s; SqlCommit].
Qed.

Lemma handlers_close_connection_witness :
  closes_connection (demo_world (Some [])) (snd (serve get_flags (demo_world (Some [])))).
Proof.
  apply (proj1 (handlers_close_connection (demo_world (Some []))
                  ltac:(vm_compute; reflexivity))).
Defined.

(** After a connection lost on the statement nothing is closed by the
    handler. *)
Example get_flags_lost_connection :
  serve get_flags demo_lost_world
  = ((JError ErrList (Some OperationalError), 500),
     extend [EvConnect (params_with demo_lost_world "secret"); EvSend SqlSelectAll]
            demo_lost_world).
Proof. reflexivity. Qed.

(** X16: [init_db] closes its cursor and its connection only on success,
    before printing the success line; when CREATE TABLE or the commit fails
    after the connection was opened, it prints the error and returns with
    nothing closed. *)
Theorem init_db_closes_only_on_success (w : world) :
  connects w = true ->
  exists before p,
    forallb is_ssm_call before = true /\ accepts (pg w) p = true /\
    trace (snd (call init_db w))
    = trace w ++ EvPrint PrintTrying :: before ++ EvConnect p ::
      match fault (pg w) SqlCreateTable, fault (pg w) SqlCommit with
      | Some f, _ => [EvSend SqlCreateTable; EvPrint (print_error (exn_of f))]
      | None, Some f =>
          [EvSend SqlCreateTable; EvSend SqlCommit; EvPrint (print_error (exn_of f))]
      | None, None =>
          [EvSend SqlCreateTable; EvSend SqlCommit; EvCloseCursor; EvCloseConnection;
           EvPrint PrintDone]
      end.
Proof.
  intros Hc.
  assert (connects (extend [EvPrint PrintTrying] w) = true) as Hx
    by by rewrite connects_extend.
  destruct (get_db_connection_online _ Hx) as (before & p & E & Hb & Ha).
  exists before, p. split; [done|]. split; [done|].
  unfold call, init_db, try_except. run. cbn -[run].
  change (Machine (emit (EvPrint PrintTrying) w) None None)
    with (start (extend [EvPrint PrintTrying] w)).
  rewrite E. cbn -[run].
  destruct (fault (pg w) SqlCreateTable) as [f|]; cbn -[run].
  { unfold print_error. destruct (is_operational_error (exn_of f)); same_world. }
  rewrite run_create_table. cbn -[run].
  destruct (fault (pg w) SqlCommit) as [f|]; cbn -[run].
  { unfold print_error. destruct (is_operational_error (exn_of f)); same_world. }
  same_world.
Qed.

Lemma init_db_closes_only_on_success_witness :
  exists before p,
    forallb is_ssm_call before = true /\ accepts (pg demo_faulty_world) p = true /\
    trace (snd (call init_db demo_faulty_world))
    = trace demo_faulty_world ++ EvPrint PrintTrying :: before ++ EvConnect p ::
      match fault (pg demo_faulty_world) SqlCreateTable,
            fault (pg demo_faulty_world) SqlCommit with
      | Some f, _ => [EvSend SqlCreateTable; EvPrint (print_error (exn_of f))]
      | None, Some f =>
          [EvSend SqlCreateTable; EvSend SqlCommit; EvPrint (print_error (exn_of f))]
      | None, None =>
          [EvSend SqlCreateTable; EvSend SqlCommit; EvCloseCursor; EvCloseConnection;
           EvPrint PrintDone]
      end.
Proof.
  apply (init_db_closes_only_on_success demo_faulty_world).
  vm_compute; reflexivity.
Defined.

(** ** An empty secret *)

(** X19: when the secret store answers with an empty value,
    [get_db_connection] raises its configuration error after the lookup and
    does not call [psycopg2.connect]. *)
Theorem empty_secret_is_no_password (w : world) (q : string) (ssm : ssm_service) :
  opt_truthy (environ w !! "DB_PASSWORD") = false ->
  environ w !! "DB_PASSWORD_SSM_PARAM" = Some q -> q <> EmptyString ->
  boto3 w = Some ssm ->
  let region :=
    or_else (environ w !! "AWS_REGION")
            (or_else (environ w !! "AWS_DEFAULT_REGION") "sa-east-1") in
  ssm region q = Some EmptyString ->
  get_db_connection (start w)
  = (Raise (RuntimeError PasswordUnresolved),
     Machine (emit (EvSsmGetParameter region q) w) None None) /\
  connects w = false.
Proof.
  intros Hp Hq Hne Hb region Hv.
  assert (get_db_connection (start w)
          = (Raise (RuntimeError PasswordUnresolved),
             Machine (emit (EvSsmGetParameter region q) w) None None)) as E.
  { unfold start, get_db_connection, resolve_db_password, get_ssm_parameter. run. cbn.
    rewrite Hp. cbn. rewrite Hq, (proj2 (String.eqb_neq q EmptyString) Hne). cbn.
    rewrite Hb. fold region. by rewrite Hv. }
  split; [done|]. unfold connects. by rewrite E.
Qed.

Lemma empty_secret_is_no_password_witness :
  get_db_connection (start demo_empty_secret_world)
  = (Raise (RuntimeError PasswordUnresolved),
     Machine (emit (EvSsmGetParameter "sa-east-1" "/prod/db/password")
                   demo_empty_secret_world) None None) /\
  connects demo_empty_secret_world = false.
Proof.
  apply (empty_secret_is_no_password demo_empty_secret_world "/prod/db/password"
           (fun _ _ => Some EmptyString));
    [vm_compute; reflexivity | vm_compute; reflexivity | discriminate | reflexivity
    | reflexivity].
Defined.
